(** * The settings editor of PowerDNS-Admin (app-settings-editor.js)

    A shallow embedding of [SettingsEditorModel]: the view model's
    observables, its [defaults] table, the load/save handlers, the tab
    navigation and the custom validation rules, followed by the
    properties the specification states about them. *)

From stdpp Require Import gmap strings list fin_maps pretty.
From Stdlib Require Import ZArith Ascii String.

Open Scope string_scope.
Set Warnings "-register-all".

(** ** JavaScript values

    The scalars a settings record holds, and the arrays and objects a
    JSON response nests them in.  Numbers are the integers the editor
    deals with ([0], [1], lengths and counts). *)

Inductive value : Type :=
  | VUndef
  | VNull
  | VBool (b : bool)
  | VNum (n : Z)
  | VStr (s : string)
  | VArr (items : list value)
  | VObj (props : list (string * value)).

(** [if (v)]: JavaScript's ToBoolean.  [undefined], [null], [false], [0]
    and the empty string are falsy; everything else, arrays and objects
    included, is truthy. *)
Definition truthy (v : value) : bool :=
  match v with
  | VUndef | VNull => false
  | VBool b => b
  | VNum n => negb (n =? 0)%Z
  | VStr s => negb (String.eqb s "")
  | VArr _ | VObj _ => true
  end.

(** [v === 1] and [v === 0]: strict equality with a number literal holds
    for that number only, never for a boolean or a string. *)
Definition strict_eq_num (v : value) (k : Z) : bool :=
  match v with
  | VNum n => (n =? k)%Z
  | _ => false
  end.

(** [v !== undefined], the test [$.extend] applies to each copied value. *)
Definition is_undefined (v : value) : bool :=
  match v with VUndef => true | _ => false end.

(** ** Regular expressions

    The fragment of the regular-expression language that [uuidRegExp]
    is written in: character classes, bounded repetition of a class,
    [+] on a class, sequence, alternation and the two anchors.
    Subjects are ASCII strings. *)

Module RegExp.

Inductive cls : Type :=
  | Range (lo hi : ascii)      (* [lo-hi] *)
  | Lit (c : ascii)            (* a literal character *)
  | Union (a b : cls).         (* two items of one bracket *)

Inductive re : Type :=
  | Bol                        (* ^ *)
  | Eol                        (* $ *)
  | Cls (c : cls)
  | Rep (n : nat) (c : cls)    (* c{n} *)
  | Plus (c : cls)             (* c+ *)
  | Seq (a b : re)
  | Alt (a b : re).            (* a|b, which binds weakest *)

Definition lower (c : ascii) : ascii :=
  let n := nat_of_ascii c in
  if (65 <=? n)%nat && (n <=? 90)%nat then ascii_of_nat (n + 32) else c.

Definition upper (c : ascii) : ascii :=
  let n := nat_of_ascii c in
  if (97 <=? n)%nat && (n <=? 122)%nat then ascii_of_nat (n - 32) else c.

Fixpoint cls_has (k : cls) (c : ascii) : bool :=
  match k with
  | Range lo hi =>
      (nat_of_ascii lo <=? nat_of_ascii c)%nat
      && (nat_of_ascii c <=? nat_of_ascii hi)%nat
  | Lit d => Ascii.eqb c d
  | Union a b => cls_has a c || cls_has b c
  end.

(** With the [i] flag a character matches when either of its cases does. *)
Definition cls_match (ci : bool) (k : cls) (c : ascii) : bool :=
  if ci then cls_has k (lower c) || cls_has k (upper c) else cls_has k c.

Fixpoint rep_match (ci : bool) (k : cls) (n : nat) (s : list ascii)
    (cont : list ascii -> bool) : bool :=
  match n with
  | O => cont s
  | S n' =>
      match s with
      | [] => false
      | c :: s' => cls_match ci k c && rep_match ci k n' s' cont
      end
  end.

Fixpoint plus_match (ci : bool) (k : cls) (s : list ascii)
    (cont : list ascii -> bool) : bool :=
  match s with
  | [] => false
  | c :: s' => cls_match ci k c && (plus_match ci k s' cont || cont s')
  end.

(** [match_here ci r at_start s cont]: [r] matches a prefix of [s] and
    [cont] accepts what is left; [at_start] says whether [s] begins
    at the start of the subject. *)
Fixpoint match_here (ci : bool) (r : re) (at_start : bool) (s : list ascii)
    (cont : bool -> list ascii -> bool) : bool :=
  match r with
  | Bol => at_start && cont at_start s
  | Eol => match s with [] => cont at_start s | _ => false end
  | Cls k =>
      match s with
      | [] => false
      | c :: s' => cls_match ci k c && cont false s'
      end
  | Rep n k =>
      rep_match ci k n s
        (fun s' => cont (at_start && (List.length s' =? List.length s)%nat) s')
  | Plus k => plus_match ci k s (cont false)
  | Seq a b =>
      match_here ci a at_start s (fun st s' => match_here ci b st s' cont)
  | Alt a b =>
      match_here ci a at_start s cont || match_here ci b at_start s cont
  end.

Fixpoint search (ci : bool) (r : re) (at_start : bool) (s : list ascii) : bool :=
  match_here ci r at_start s (fun _ _ => true)
  || match s with
     | [] => false
     | _ :: s' => search ci r false s'
     end.

(** [regexp.test(str)] for a regular expression without the [g] flag:
    some substring of [str] matches. *)
Definition test (ci : bool) (r : re) (str : string) : bool :=
  search ci r true (list_ascii_of_string str).

End RegExp.

(** ** The view model

    [self] carries one observable per member name: the view state
    ([loading], [saving], [saved], ...) and, once [update] has run, one
    per settings field.  They share one name space, so the model keeps
    them in one map; reading a member that is not there is the
    [TypeError] of calling [undefined], rendered as [None].  Next to it
    sit the closure variables [defaults] and [target], the part of the
    browser the model talks to (the location fragment) and the requests
    handed to [$.ajax].

    [tabs] and the methods are members of [self] as well.  The code
    never assigns them, and the model keeps them apart from the map: a
    record key spelled like one of them (which [update] would turn
    into an observable of that name) is outside its scope. *)

Record Tab : Type := mkTab {
  tab_id : string;
  tab_name : string;
  tab_icon : string;
  tab_parent : option string;    (* [parent: null] is [None] *)
  tab_def : bool                 (* an absent [def] is falsy *)
}.

Record Request : Type := mkRequest {
  req_url : string;
  req_type : string;
  req_csrf_token : string;
  req_commit : option Z;                 (* [commit: 1], on save only *)
  req_data : option (gmap string value)  (* [data: ko.toJSON(self)], on save only *)
}.

Record Model : Type := mkModel {
  obs : gmap string value;        (* the observables of [self], by member name *)
  tabs : list Tab;                (* [self.tabs] *)
  defaults : gmap string value;   (* [let defaults], shared by every [update] *)
  target : bool;                  (* [target !== null] *)
  location_hash : string;         (* the fragment, without its [#] *)
  hash_writes : list string;      (* every assignment to [window.location.hash], latest first *)
  requests : list Request         (* every [$.ajax] call, latest first *)
}.

Definition set_obs (f : gmap string value -> gmap string value) (m : Model) : Model :=
  mkModel (f (obs m)) (tabs m) (defaults m) (target m)
          (location_hash m) (hash_writes m) (requests m).

(** [self[key](v)]: writing an observable. *)
Definition write (key : string) (v : value) (m : Model) : Model :=
  set_obs (insert key v) m.

(** [self[key]()]: reading an observable. *)
Definition read (key : string) (m : Model) : option value := obs m !! key.

Definition initial_tabs : list Tab :=
  [ mkTab "authentication" "Authentication" "fa fa-lock" None false;
    mkTab "mail" "Mail" "fa fa-envelope" None false;
    mkTab "powerdns" "PowerDNS" "fa fa-server" None false;
    mkTab "security" "Security" "fa fa-shield-alt" None false;
    mkTab "ui" "UI" "fa fa-desktop" None false;
    mkTab "zone-editor" "Zone Editor" "fa fa-edit" None false;
    mkTab "local" "Local" "fa fa-user-lock" (Some "authentication") true;
    mkTab "ldap" "LDAP" "fa fa-database" (Some "authentication") false;
    mkTab "azure" "Azure OAuth" "fa-brands fa-microsoft" (Some "authentication") false;
    mkTab "github" "GitHub OAuth" "fa-brands fa-github" (Some "authentication") false;
    mkTab "google" "Google OAuth" "fa-brands fa-google" (Some "authentication") false;
    mkTab "oidc" "OpenID Connect" "fa-brands fa-openid" (Some "authentication") false;
    mkTab "saml" "SAML" "fa fa-network-wired" (Some "authentication") false ].

(** The observables the constructor creates, with their first values. *)
Definition initial_obs : gmap string value :=
  list_to_map
    [ ("settings", VObj []);
      ("loading", VBool false);
      ("saving", VBool false);
      ("saved", VBool false);
      ("save_failed", VBool false);
      ("messages", VArr []);
      ("messages_class", VStr "info");
      ("tab_active", VStr "");
      ("tab_default", VStr "authentication") ].

Definition static_defaults : list (string * value) :=
  [ (* Local Authentication Settings *)
    ("local_db_enabled", VBool true);
    ("signup_enabled", VBool true);
    ("pwd_enforce_characters", VBool false);
    ("pwd_min_len", VNum 10);
    ("pwd_min_lowercase", VNum 3);
    ("pwd_min_uppercase", VNum 2);
    ("pwd_min_digits", VNum 2);
    ("pwd_min_special", VNum 1);
    ("pwd_enforce_complexity", VBool false);
    ("pwd_min_complexity", VNum 11);
    (* LDAP Authentication Settings *)
    ("ldap_enabled", VBool false);
    ("ldap_type", VStr "ldap");
    ("ldap_uri", VStr "");
    ("ldap_base_dn", VStr "");
    ("ldap_admin_username", VStr "");
    ("ldap_admin_password", VStr "");
    ("ldap_domain", VStr "");
    ("ldap_filter_basic", VStr "");
    ("ldap_filter_username", VStr "");
    ("ldap_filter_group", VStr "");
    ("ldap_filter_groupname", VStr "");
    ("ldap_sg_enabled", VBool false);
    ("ldap_admin_group", VStr "");
    ("ldap_operator_group", VStr "");
    ("ldap_user_group", VStr "");
    ("autoprovisioning", VBool false);
    ("autoprovisioning_attribute", VStr "");
    ("urn_value", VStr "");
    ("purge", VNum 0);
    (* Google OAuth2 Settings *)
    ("google_oauth_enabled", VBool false);
    ("google_oauth_client_id", VStr "");
    ("google_oauth_client_secret", VStr "");
    ("google_oauth_scope", VStr "");
    ("google_base_url", VStr "");
    ("google_oauth_auto_configure", VBool true);
    ("google_oauth_metadata_url", VStr "");
    ("google_token_url", VStr "");
    ("google_authorize_url", VStr "");
    (* GitHub OAuth2 Settings *)
    ("github_oauth_enabled", VBool false);
    ("github_oauth_key", VStr "");
    ("github_oauth_secret", VStr "");
    ("github_oauth_scope", VStr "");
    ("github_oauth_api_url", VStr "");
    ("github_oauth_auto_configure", VBool false);
    ("github_oauth_metadata_url", VStr "");
    ("github_oauth_token_url", VStr "");
    ("github_oauth_authorize_url", VStr "");
    (* Azure AD OAuth2 Settings *)
    ("azure_oauth_enabled", VBool false);
    ("azure_oauth_key", VStr "");
    ("azure_oauth_secret", VStr "");
    ("azure_oauth_scope", VStr "");
    ("azure_oauth_api_url", VStr "");
    ("azure_oauth_auto_configure", VBool true);
    ("azure_oauth_metadata_url", VStr "");
    ("azure_oauth_token_url", VStr "");
    ("azure_oauth_authorize_url", VStr "");
    ("azure_sg_enabled", VBool false);
    ("azure_admin_group", VStr "");
    ("azure_operator_group", VStr "");
    ("azure_user_group", VStr "");
    ("azure_group_accounts_enabled", VBool false);
    ("azure_group_accounts_name", VStr "");
    ("azure_group_accounts_name_re", VStr "");
    ("azure_group_accounts_description", VStr "");
    ("azure_group_accounts_description_re", VStr "");
    (* OIDC OAuth2 Settings *)
    ("oidc_oauth_enabled", VBool false);
    ("oidc_oauth_key", VStr "");
    ("oidc_oauth_secret", VStr "");
    ("oidc_oauth_scope", VStr "");
    ("oidc_oauth_api_url", VStr "");
    ("oidc_oauth_auto_configure", VBool true);
    ("oidc_oauth_metadata_url", VStr "");
    ("oidc_oauth_token_url", VStr "");
    ("oidc_oauth_authorize_url", VStr "");
    ("oidc_oauth_logout_url", VStr "");
    ("oidc_oauth_username", VStr "");
    ("oidc_oauth_email", VStr "");
    ("oidc_oauth_firstname", VStr "");
    ("oidc_oauth_last_name", VStr "");
    ("oidc_oauth_account_name_property", VStr "");
    ("oidc_oauth_account_description_property", VStr "") ].

(** The model as [new SettingsEditorModel(...)] leaves it, before [init]:
    [target] is still [null], and [fragment] is what the address bar holds. *)
Definition construct (fragment : string) : Model :=
  mkModel initial_obs initial_tabs (list_to_map static_defaults) false fragment [] [].

(** ** [update]

    [$.extend(defaults, instance)] copies every property of [instance]
    whose value is not [undefined] into [defaults] itself and returns
    [defaults]; it passes over a property named [__proto__], and a
    [null] or [undefined] instance ([None]) copies nothing. *)
Definition extend (dst : gmap string value) (src : option (gmap string value))
    : gmap string value :=
  match src with
  | None => dst
  | Some o =>
      filter (fun kv => kv.1 ≠ "__proto__" ∧ is_undefined kv.2 = false) o ∪ dst
  end.

(** The loop body: write the observable [self[key]] when there is one,
    create it otherwise.  Either way the member then holds [v]. *)
Definition assign (key : string) (v : value) (o : gmap string value)
    : gmap string value :=
  match o !! key with
  | Some _ => <[key := v]> o
  | None => <[key := v]> o
  end.

(** [update] writes [self[key]] for every key of the merged table.
    The tab table and the methods are members of [self] as well, kept
    here apart from [obs]: a key named like one of them lands in [obs]
    and leaves the table and the method as they were, where the code
    writes the table or puts an observable in the method's place.
    The embedding follows the code for as long as the merged table
    names no member (see [intact] and [ordinary]). *)
Definition update (instance : option (gmap string value)) (m : Model) : Model :=
  let merged := extend (defaults m) instance in
  mkModel (map_fold assign (obs m) merged) (tabs m) merged (target m)
          (location_hash m) (hash_writes m) (requests m).

(** ** Responses and outcomes *)

Record Payload : Type := mkPayload {
  legacy : option (gmap string value);   (* [payload.legacy] *)
  settings : value                       (* [payload.settings] *)
}.

(** What the endpoint answers; a property the answer lacks is [None]
    (for an object) or [VUndef] (for anything else). *)
Record Response : Type := mkResponse {
  status : value;
  messages : value;
  payload : option Payload;
  data : option (gmap string value)
}.

(** A call either returns a value or throws, and leaves a model behind. *)
Inductive Outcome : Type :=
  | Returned (ret : value) (m : Model)
  | Threw (m : Model).

Definition model_of (o : Outcome) : Model :=
  match o with Returned _ m | Threw m => m end.

(** [ko.toJSON(self)]: every observable unwrapped, [tabs] included,
    properties whose value is [undefined] dropped.  The text is
    represented by the object it denotes. *)
Definition tab_json (t : Tab) : value :=
  VObj ([ ("id", VStr (tab_id t)); ("name", VStr (tab_name t));
          ("icon", VStr (tab_icon t));
          ("parent", match tab_parent t with Some p => VStr p | None => VNull end) ]
        ++ if tab_def t then [("def", VBool true)] else []).

Definition toJSON (m : Model) : gmap string value :=
  filter (fun kv => is_undefined kv.2 = false)
         (<["tabs" := VArr (tab_json <$> tabs m)]> (obs m)).

(** [self.observe]: [undefined] becomes [null], arrays and objects are
    walked, every leaf is wrapped in an observable.  The model keeps
    what the observables hold and not the wrapping, and it follows the
    code on trees in which no object has a property named
    [hasOwnProperty] (see [plain_tree]): on such an object the code's
    [value.hasOwnProperty(key)] is a call of that property.  An object
    with a property named [constructor] is a leaf to the code and is
    walked here, which shows only where it holds an [undefined]. *)
Fixpoint observe (v : value) : value :=
  match v with
  | VUndef => VNull
  | VArr items => VArr (List.map observe items)
  | VObj props => VObj (List.map (fun p => (fst p, observe (snd p))) props)
  | _ => v
  end.

(** [str.includes(sub)] *)
Fixpoint includes (sub str : string) : bool :=
  String.prefix sub str
  || match str with
     | EmptyString => false
     | String _ rest => includes sub rest
     end.

(** [item.parent === tab] *)
Definition parent_is (t : Tab) (tab : string) : bool :=
  match tab_parent t with
  | Some p => String.eqb p tab
  | None => false
  end.

(** ** The operations of the model

    [api_url] and [csrf_token] are the constructor's arguments;
    [valid] is the verdict of [target.valid()], which the jQuery
    Validation plugin computes from the bound form. *)

Section Editor.

Variable api_url : string.
Variable csrf_token : string.
Variable valid : Model -> bool.

Definition ajax (r : Request) (m : Model) : Model :=
  mkModel (obs m) (tabs m) (defaults m) (target m)
          (location_hash m) (hash_writes m) (r :: requests m).

Definition load (m : Model) : Model :=
  let m := write "loading" (VBool true) m in
  ajax (mkRequest api_url "POST" csrf_token None None) m.

(** [target.valid()]: a [TypeError] while [target] is [null]. *)
Definition validate (m : Model) : option bool :=
  if target m then Some (valid m) else None.

Definition save (m : Model) : Outcome :=
  match validate m with
  | None => Threw m
  | Some false => Returned (VBool false) m
  | Some true =>
      let m := write "saving" (VBool true) m in
      Returned VUndef
        (ajax (mkRequest api_url "POST" csrf_token (Some 1%Z) (Some (toJSON m))) m)
  end.

(** [onElementChanged] runs the validation for its effect on the page
    and discards the verdict. *)
Definition onElementChanged (m : Model) : Outcome :=
  match validate m with
  | None => Threw m
  | Some _ => Returned VUndef m
  end.

End Editor.

(** [window.location.hash = tab], for a text the browser stores as it
    is written (see [verbatim]); it encodes other characters and drops
    one leading [#]. *)
Definition set_location_hash (tab : string) (m : Model) : Model :=
  mkModel (obs m) (tabs m) (defaults m) (target m)
          tab (tab :: hash_writes m) (requests m).

(** The loop of [activateTab]: [tab] grows as soon as an item fits, and
    the items after it are compared with the grown path. *)
Definition qualify (items : list Tab) (tab : string) : string :=
  fold_left
    (fun tab item =>
       if parent_is item tab && tab_def item
       then tab ++ "/" ++ tab_id item
       else tab)
    items tab.

Definition activateTab (tab : string) (m : Model) : Model :=
  let tab := if negb (includes "/" tab) then qualify (tabs m) tab else tab in
  let m := write "tab_active" (VStr tab) m in
  set_location_hash tab m.

Definition onDataLoaded (result : Response) (m : Model) : Outcome :=
  if strict_eq_num (status result) 0 then
    let m := write "messages_class" (VStr "danger") m in
    let m := write "messages" (messages result) m in
    let m := write "loading" (VBool false) m in
    Returned (VBool false) m
  else
    match payload result with
    | None => Threw m
    | Some p =>
        let settings := observe (settings p) in
        let m := update (legacy p) m in
        let m := write "settings" settings m in
        let m := write "messages_class" (VStr "info") m in
        let m := write "messages" (messages result) m in
        let m := write "loading" (VBool false) m in
        Returned VUndef m
    end.

Definition onDataSaved (result : Response) (m : Model) : Outcome :=
  if strict_eq_num (status result) 0 then
    let m := write "saved" (VBool false) m in
    let m := write "save_failed" (VBool true) m in
    let m := write "messages_class" (VStr "danger") m in
    let m := write "messages" (messages result) m in
    let m := write "saving" (VBool false) m in
    Returned (VBool false) m
  else
    let m := update (data result) m in
    let m := write "saved" (VBool true) m in
    let m := write "save_failed" (VBool false) m in
    let m := write "messages_class" (VStr "info") m in
    let m := write "messages" (messages result) m in
    let m := write "saving" (VBool false) m in
    Returned VUndef m.

(** ** Validation rules ([setupValidation]) *)

Module Validation.

Import RegExp.

Definition hex : cls := Union (Range "0" "9") (Range "a" "f").
Definition digit : cls := Range "0" "9".
Definition dash : re := Cls (Lit "-").

(** [/^([0-9a-f]{8}-[0-9a-f]{4}-[1-5][0-9a-f]{3}-[89ab][0-9a-f]{3}-[0-9a-f]{12})|[0-9]+$/i]:
    the alternation splits the whole pattern, so [^] belongs to the
    left branch and [$] to the right one. *)
Definition uuidRegExp : re :=
  Alt
    (Seq Bol
       (Seq (Rep 8 hex) (Seq dash
       (Seq (Rep 4 hex) (Seq dash
       (Seq (Cls (Range "1" "5")) (Seq (Rep 3 hex) (Seq dash
       (Seq (Cls (Union (Lit "8") (Union (Lit "9") (Union (Lit "a") (Lit "b")))))
       (Seq (Rep 3 hex) (Seq dash
       (Rep 12 hex))))))))))))
    (Seq (Plus digit) Eol).

(** [a && b]: [b] is evaluated only when [a] is truthy, and the
    result is the operand that decided. *)
Definition js_and (a b : option value) : option value :=
  v ← a; if truthy v then b else Some v.

(** [!a] *)
Definition js_not (a : option value) : option value :=
  v ← a; Some (VBool (negb (truthy v))).

(** [a === 1] *)
Definition is_one (a : option value) : option value :=
  v ← a; Some (VBool (strict_eq_num v 1)).

(** [a === 'text'] *)
Definition is_text (text : string) (a : option value) : option value :=
  v ← a; Some (VBool match v with VStr s => String.eqb s text | _ => false end).

(** [if (read) { enabled++ }] *)
Definition count_if (test : value -> bool) (key : string) (m : Model)
    (enabled : Z) : option Z :=
  v ← read key m; Some (if test v then (enabled + 1)%Z else enabled).

Definition auth_enabled (m : Model) : option bool :=
  let enabled := 0%Z in
  enabled ← count_if truthy "local_db_enabled" m enabled;
  enabled ← count_if truthy "ldap_enabled" m enabled;
  enabled ← count_if truthy "google_oauth_enabled" m enabled;
  enabled ← count_if truthy "github_oauth_enabled" m enabled;
  enabled ← count_if truthy "azure_oauth_enabled" m enabled;
  enabled ← count_if truthy "oidc_oauth_enabled" m enabled;
  Some (0 <? enabled)%Z.

Definition ldap_exclusive (m : Model) : option bool :=
  let enabled := 0%Z in
  enabled ← count_if (fun v => strict_eq_num v 1) "ldap_sg_enabled" m enabled;
  enabled ← count_if (fun v => strict_eq_num v 1) "autoprovisioning" m enabled;
  Some (enabled <? 2)%Z.

Definition uuid (value : string) : bool := test true uuidRegExp value.

Definition local_enabled (m : Model) : option value :=
  read "local_db_enabled" m.
Definition ldap_enabled (m : Model) : option value :=
  read "ldap_enabled" m.
Definition google_oauth_enabled (m : Model) : option value :=
  read "google_oauth_enabled" m.
Definition github_oauth_enabled (m : Model) : option value :=
  read "github_oauth_enabled" m.
Definition azure_oauth_enabled (m : Model) : option value :=
  read "azure_oauth_enabled" m.
Definition oidc_oauth_enabled (m : Model) : option value :=
  read "oidc_oauth_enabled" m.

Definition enforce_characters (m : Model) : option value :=
  js_and (is_one (read "local_db_enabled" m))
         (is_one (read "pwd_enforce_characters" m)).
Definition enforce_complexity (m : Model) : option value :=
  js_and (is_one (read "local_db_enabled" m))
         (is_one (read "pwd_enforce_complexity" m)).
Definition ldap_type_openldap (m : Model) : option value :=
  js_and (read "ldap_enabled" m) (is_text "ldap" (read "ldap_type" m)).
Definition ldap_type_ad (m : Model) : option value :=
  js_and (read "ldap_enabled" m) (is_text "ad" (read "ldap_type" m)).
Definition ldap_sg_enabled (m : Model) : option value :=
  js_and (is_one (read "ldap_enabled" m)) (is_one (read "ldap_sg_enabled" m)).
Definition ldap_ap_enabled (m : Model) : option value :=
  js_and (is_one (read "ldap_enabled" m)) (is_one (read "autoprovisioning" m)).
Definition azure_gs_enabled (m : Model) : option value :=
  js_and (is_one (read "azure_oauth_enabled" m))
         (is_one (read "azure_sg_enabled" m)).
Definition azure_gas_enabled (m : Model) : option value :=
  js_and (read "azure_oauth_enabled" m) (read "azure_group_accounts_enabled" m).

Definition google_oauth_auto_configure_enabled (m : Model) : option value :=
  js_and (read "google_oauth_enabled" m) (read "google_oauth_auto_configure" m).
Definition google_oauth_auto_configure_disabled (m : Model) : option value :=
  js_and (read "google_oauth_enabled" m)
         (js_not (read "google_oauth_auto_configure" m)).
Definition github_oauth_auto_configure_enabled (m : Model) : option value :=
  js_and (read "github_oauth_enabled" m) (read "github_oauth_auto_configure" m).
Definition github_oauth_auto_configure_disabled (m : Model) : option value :=
  js_and (read "github_oauth_enabled" m)
         (js_not (read "github_oauth_auto_configure" m)).
Definition azure_oauth_auto_configure_enabled (m : Model) : option value :=
  js_and (read "azure_oauth_enabled" m) (read "azure_oauth_auto_configure" m).
Definition azure_oauth_auto_configure_disabled (m : Model) : option value :=
  js_and (read "azure_oauth_enabled" m)
         (js_not (read "azure_oauth_auto_configure" m)).
Definition oidc_oauth_auto_configure_enabled (m : Model) : option value :=
  js_and (read "oidc_oauth_enabled" m) (read "oidc_oauth_auto_configure" m).
Definition oidc_oauth_auto_configure_disabled (m : Model) : option value :=
  js_and (read "oidc_oauth_enabled" m)
         (js_not (read "oidc_oauth_auto_configure" m)).

(** The methods [jQuery.validator.addMethod] registers, by name.  None
    of the three looks at the element it is called for; [uuid] tests
    the element's value, the other two the model. *)
Definition custom_methods : list string :=
  ["auth_enabled"; "ldap_exclusive"; "uuid"].

(** A rule's parameter: [true], a number, or a predicate of the model
    that decides whether the rule applies. *)
Inductive Param : Type :=
  | PTrue
  | PNum (n : Z)
  | PDep (depends : Model -> option value).

(** What [rules] holds for a field: the name of one method, an object
    of methods with their parameters, or (for four fields) a bare
    predicate. *)
Inductive FieldRules : Type :=
  | ByName (method : string)
  | ByObject (methods : list (string * Param))
  | ByFunction (f : Model -> option value).

Definition rules : list (string * FieldRules) :=
[
  ("local_db_enabled", ByName "auth_enabled");
  ("ldap_enabled", ByName "auth_enabled");
  ("google_oauth_enabled", ByName "auth_enabled");
  ("github_oauth_enabled", ByName "auth_enabled");
  ("azure_oauth_enabled", ByName "auth_enabled");
  ("oidc_oauth_enabled", ByName "auth_enabled");
  ("pwd_min_len", ByObject
     [("required", PDep enforce_characters); ("digits", PTrue);
      ("min", PNum 1); ("max", PNum 64)]);
  ("pwd_min_lowercase", ByObject
     [("required", PDep enforce_characters); ("digits", PTrue);
      ("min", PNum 0); ("max", PNum 64)]);
  ("pwd_min_uppercase", ByObject
     [("required", PDep enforce_characters); ("digits", PTrue);
      ("min", PNum 0); ("max", PNum 64)]);
  ("pwd_min_digits", ByObject
     [("required", PDep enforce_characters); ("digits", PTrue);
      ("min", PNum 0); ("max", PNum 64)]);
  ("pwd_min_special", ByObject
     [("required", PDep enforce_characters); ("digits", PTrue);
      ("min", PNum 0); ("max", PNum 64)]);
  ("pwd_min_complexity", ByObject
     [("required", PDep enforce_complexity); ("digits", PTrue);
      ("min", PNum 1); ("max", PNum 1000)]);
  ("ldap_type", ByFunction ldap_enabled);
  ("ldap_uri", ByObject
     [("required", PDep ldap_enabled); ("minlength", PNum 11);
      ("maxlength", PNum 255)]);
  ("ldap_base_dn", ByObject
     [("required", PDep ldap_enabled); ("minlength", PNum 4);
      ("maxlength", PNum 255)]);
  ("ldap_admin_username", ByObject
     [("required", PDep ldap_type_openldap); ("minlength", PNum 4);
      ("maxlength", PNum 255)]);
  ("ldap_admin_password", ByObject
     [("required", PDep ldap_type_openldap); ("minlength", PNum 1);
      ("maxlength", PNum 255)]);
  ("ldap_domain", ByObject
     [("required", PDep ldap_type_ad); ("minlength", PNum 1);
      ("maxlength", PNum 255)]);
  ("ldap_filter_basic", ByObject
     [("required", PDep ldap_enabled); ("minlength", PNum 3);
      ("maxlength", PNum 1000)]);
  ("ldap_filter_username", ByObject
     [("required", PDep ldap_enabled); ("minlength", PNum 1);
      ("maxlength", PNum 100)]);
  ("ldap_filter_group", ByObject
     [("required", PDep ldap_type_openldap); ("minlength", PNum 3);
      ("maxlength", PNum 100)]);
  ("ldap_filter_groupname", ByObject
     [("required", PDep ldap_type_openldap); ("minlength", PNum 1);
      ("maxlength", PNum 100)]);
  ("ldap_sg_enabled", ByObject
     [("required", PDep ldap_enabled); ("ldap_exclusive", PTrue)]);
  ("ldap_admin_group", ByObject
     [("required", PDep ldap_sg_enabled); ("minlength", PNum 3);
      ("maxlength", PNum 100)]);
  ("ldap_operator_group", ByObject
     [("required", PDep ldap_sg_enabled); ("minlength", PNum 3);
      ("maxlength", PNum 100)]);
  ("ldap_user_group", ByObject
     [("required", PDep ldap_sg_enabled); ("minlength", PNum 3);
      ("maxlength", PNum 100)]);
  ("autoprovisioning", ByObject
     [("required", PDep ldap_enabled); ("ldap_exclusive", PTrue)]);
  ("autoprovisioning_attribute", ByObject
     [("required", PDep ldap_ap_enabled); ("minlength", PNum 1);
      ("maxlength", PNum 100)]);
  ("urn_value", ByObject
     [("required", PDep ldap_ap_enabled); ("minlength", PNum 1);
      ("maxlength", PNum 100)]);
  ("purge", ByFunction ldap_enabled);
  ("google_oauth_client_id", ByObject
     [("required", PDep google_oauth_enabled); ("minlength", PNum 1);
      ("maxlength", PNum 255)]);
  ("google_oauth_client_secret", ByObject
     [("required", PDep google_oauth_enabled); ("minlength", PNum 1);
      ("maxlength", PNum 255)]);
  ("google_oauth_scope", ByObject
     [("required", PDep google_oauth_enabled); ("minlength", PNum 1);
      ("maxlength", PNum 255)]);
  ("google_base_url", ByObject
     [("required", PDep google_oauth_enabled); ("minlength", PNum 1);
      ("maxlength", PNum 255); ("url", PTrue)]);
  ("google_oauth_metadata_url", ByObject
     [("required", PDep google_oauth_auto_configure_enabled);
      ("minlength", PNum 1); ("maxlength", PNum 255); ("url", PTrue)]);
  ("google_token_url", ByObject
     [("required", PDep google_oauth_auto_configure_disabled);
      ("minlength", PNum 1); ("maxlength", PNum 255); ("url", PTrue)]);
  ("google_authorize_url", ByObject
     [("required", PDep google_oauth_auto_configure_disabled);
      ("minlength", PNum 1); ("maxlength", PNum 255); ("url", PTrue)]);
  ("github_oauth_key", ByObject
     [("required", PDep github_oauth_enabled); ("minlength", PNum 1);
      ("maxlength", PNum 255)]);
  ("github_oauth_secret", ByObject
     [("required", PDep github_oauth_enabled); ("minlength", PNum 1);
      ("maxlength", PNum 255)]);
  ("github_oauth_scope", ByObject
     [("required", PDep github_oauth_enabled); ("minlength", PNum 1);
      ("maxlength", PNum 255)]);
  ("github_oauth_api_url", ByObject
     [("required", PDep github_oauth_enabled); ("minlength", PNum 1);
      ("maxlength", PNum 255); ("url", PTrue)]);
  ("github_oauth_metadata_url", ByObject
     [("required", PDep github_oauth_auto_configure_enabled);
      ("minlength", PNum 1); ("maxlength", PNum 255); ("url", PTrue)]);
  ("github_oauth_token_url", ByObject
     [("required", PDep github_oauth_auto_configure_disabled);
      ("minlength", PNum 1); ("maxlength", PNum 255); ("url", PTrue)]);
  ("github_oauth_authorize_url", ByObject
     [("required", PDep github_oauth_auto_configure_disabled);
      ("minlength", PNum 1); ("maxlength", PNum 255); ("url", PTrue)]);
  ("azure_oauth_key", ByObject
     [("required", PDep azure_oauth_enabled); ("minlength", PNum 1);
      ("maxlength", PNum 255); ("uuid", PTrue)]);
  ("azure_oauth_secret", ByObject
     [("required", PDep azure_oauth_enabled); ("minlength", PNum 1);
      ("maxlength", PNum 255)]);
  ("azure_oauth_scope", ByObject
     [("required", PDep azure_oauth_enabled); ("minlength", PNum 1);
      ("maxlength", PNum 255)]);
  ("azure_oauth_api_url", ByObject
     [("required", PDep azure_oauth_enabled); ("minlength", PNum 1);
      ("maxlength", PNum 255); ("url", PTrue)]);
  ("azure_oauth_metadata_url", ByObject
     [("required", PDep azure_oauth_auto_configure_enabled);
      ("minlength", PNum 1); ("maxlength", PNum 255); ("url", PTrue)]);
  ("azure_oauth_token_url", ByObject
     [("required", PDep azure_oauth_auto_configure_disabled);
      ("minlength", PNum 1); ("maxlength", PNum 255); ("url", PTrue)]);
  ("azure_oauth_authorize_url", ByObject
     [("required", PDep azure_oauth_auto_configure_disabled);
      ("minlength", PNum 1); ("maxlength", PNum 255); ("url", PTrue)]);
  ("azure_sg_enabled", ByFunction azure_oauth_enabled);
  ("azure_admin_group", ByObject
     [("uuid", PDep azure_gs_enabled)]);
  ("azure_operator_group", ByObject
     [("uuid", PDep azure_gs_enabled)]);
  ("azure_user_group", ByObject
     [("uuid", PDep azure_gs_enabled)]);
  ("azure_group_accounts_enabled", ByFunction azure_oauth_enabled);
  ("azure_group_accounts_name", ByObject
     [("required", PDep azure_gas_enabled); ("minlength", PNum 1);
      ("maxlength", PNum 255)]);
  ("azure_group_accounts_name_re", ByObject
     [("required", PDep azure_gas_enabled); ("minlength", PNum 1);
      ("maxlength", PNum 255)]);
  ("azure_group_accounts_description", ByObject
     [("required", PDep azure_gas_enabled); ("minlength", PNum 1);
      ("maxlength", PNum 255)]);
  ("azure_group_accounts_description_re", ByObject
     [("required", PDep azure_gas_enabled); ("minlength", PNum 1);
      ("maxlength", PNum 255)]);
  ("oidc_oauth_key", ByObject
     [("required", PDep oidc_oauth_enabled); ("minlength", PNum 1);
      ("maxlength", PNum 255)]);
  ("oidc_oauth_secret", ByObject
     [("required", PDep oidc_oauth_enabled); ("minlength", PNum 1);
      ("maxlength", PNum 255)]);
  ("oidc_oauth_scope", ByObject
     [("required", PDep oidc_oauth_enabled); ("minlength", PNum 1);
      ("maxlength", PNum 255)]);
  ("oidc_oauth_api_url", ByObject
     [("required", PDep oidc_oauth_enabled); ("minlength", PNum 1);
      ("maxlength", PNum 255); ("url", PTrue)]);
  ("oidc_oauth_metadata_url", ByObject
     [("required", PDep oidc_oauth_auto_configure_enabled);
      ("minlength", PNum 1); ("maxlength", PNum 255); ("url", PTrue)]);
  ("oidc_oauth_token_url", ByObject
     [("required", PDep oidc_oauth_auto_configure_disabled);
      ("minlength", PNum 1); ("maxlength", PNum 255); ("url", PTrue)]);
  ("oidc_oauth_authorize_url", ByObject
     [("required", PDep oidc_oauth_auto_configure_disabled);
      ("minlength", PNum 1); ("maxlength", PNum 255); ("url", PTrue)]);
  ("oidc_oauth_logout_url", ByObject
     [("required", PDep oidc_oauth_enabled); ("minlength", PNum 1);
      ("maxlength", PNum 255); ("url", PTrue)]);
  ("oidc_oauth_username", ByObject
     [("required", PDep oidc_oauth_enabled); ("minlength", PNum 1);
      ("maxlength", PNum 255)]);
  ("oidc_oauth_email", ByObject
     [("required", PDep oidc_oauth_enabled); ("minlength", PNum 1);
      ("maxlength", PNum 255)]);
  ("oidc_oauth_firstname", ByObject
     [("minlength", PNum 0); ("maxlength", PNum 255)]);
  ("oidc_oauth_last_name", ByObject
     [("minlength", PNum 0); ("maxlength", PNum 255)]);
  ("oidc_oauth_account_name_property", ByObject
     [("minlength", PNum 0); ("maxlength", PNum 255)]);
  ("oidc_oauth_account_description_property", ByObject
     [("minlength", PNum 0); ("maxlength", PNum 255)])
].

Definition rules_of (field : string) : option FieldRules :=
  snd <$> List.find (fun r => String.eqb (fst r) field) rules.

(** The methods a field is checked with.  A bare predicate has no
    properties to read methods from, so it attaches none. *)
Definition methods_of (field : string) : list string :=
  match rules_of field with
  | Some (ByName method) => [method]
  | Some (ByObject methods) => fst <$> methods
  | Some (ByFunction _) | None => []
  end.

(** The fields a method is attached to, in the order of [rules]. *)
Definition fields_with (method : string) : list string :=
  fst <$> List.filter
    (fun r => existsb (String.eqb method) (methods_of (fst r))) rules.

(** The predicates a field's rules depend on. *)
Definition predicates_of (r : FieldRules) : list (Model -> option value) :=
  match r with
  | ByName _ => []
  | ByObject methods =>
      omap (fun entry => match snd entry with
                         | PDep depends => Some depends
                         | _ => None
                         end) methods
  | ByFunction f => [f]
  end.

(** Every predicate the rule table mentions, in its order. *)
Definition rule_predicates : list (Model -> option value) :=
  List.concat ((fun r => predicates_of (snd r)) <$> rules).

End Validation.

(** ** Editing, and the events a page goes through *)

(** The observables the constructor creates.  Every other member that
    [update] adds is a settings field. *)
Definition view_state : list string :=
  [ "settings"; "loading"; "saving"; "saved"; "save_failed"; "messages";
    "messages_class"; "tab_active"; "tab_default" ].

Definition is_field (key : string) : bool :=
  negb (existsb (String.eqb key) view_state).

(** A record that carries no property named after one of the two
    outcome flags. *)
Definition flag_free (instance : option (gmap string value)) : Prop :=
  match instance with
  | None => True
  | Some o => o !! "saved" = None ∧ o !! "save_failed" = None
  end.

(** [instance] has no property [key]. *)
Definition omits (key : string) (instance : option (gmap string value)) : Prop :=
  match instance with
  | None => True
  | Some o => o !! key = None
  end.

(** The display states the specification names, read off the flags. *)
Inductive Display : Type := Idle | Saving | Saved | SaveFailed.

Definition flag (key : string) (m : Model) : bool :=
  match read key m with Some v => truthy v | None => false end.

Definition display (m : Model) : Display :=
  if flag "saving" m then Saving
  else if flag "saved" m then Saved
  else if flag "save_failed" m then SaveFailed
  else Idle.

Section Page.

Variable api_url : string.
Variable csrf_token : string.
Variable valid : Model -> bool.

(** A bound input writes its observable; the change handler follows. *)
Definition edit (key : string) (v : value) (m : Model) : Model :=
  model_of (onElementChanged valid (write key v m)).

(** [setupKnockoutBindings]: [target] is the element the selector finds. *)
Definition bind_target (found : bool) (m : Model) : Model :=
  mkModel (obs m) (tabs m) (defaults m) found
          (location_hash m) (hash_writes m) (requests m).

(** One thing happening to the page.  [accept] says which records
    (the constructor's [user_data], a response's [legacy] or [data])
    the environment may hand over. *)
Inductive step (accept : option (gmap string value) -> Prop) : Model -> Model -> Prop :=
  | step_update m user_data :
      accept user_data -> step accept m (update user_data m)
  | step_bind m found :
      step accept m (bind_target found m)
  | step_activate m tab :
      step accept m (activateTab tab m)
  | step_edit m key v :
      is_field key = true -> step accept m (edit key v m)
  | step_load m :
      step accept m (load api_url csrf_token m)
  | step_loaded m result :
      (forall p, payload result = Some p -> accept (legacy p)) ->
      step accept m (model_of (onDataLoaded result m))
  | step_save m :
      step accept m (model_of (save api_url csrf_token valid m))
  | step_saved m result :
      accept (data result) ->
      step accept m (model_of (onDataSaved result m)).

Definition reachable (accept : option (gmap string value) -> Prop) (m : Model) : Prop :=
  exists fragment, rtc (step accept) (construct fragment) m.

End Page.

(** ** The rest of the model's handlers *)

(** [String(v)], as string concatenation and the assignment to
    [window.location.hash] apply it.  An integer prints in decimal; an
    array is its elements joined by commas, [null] and [undefined]
    elements giving nothing. *)
Fixpoint js_to_string (v : value) : string :=
  match v with
  | VUndef => "undefined"
  | VNull => "null"
  | VBool true => "true"
  | VBool false => "false"
  | VNum n => pretty n
  | VStr s => s
  | VArr items =>
      String.concat ","
        (List.map (fun item =>
                     match item with
                     | VUndef | VNull => ""
                     | _ => js_to_string item
                     end) items)
  | VObj _ => "[object Object]"
  end.

(** [window.location.hash] read: empty for an empty fragment, the
    fragment behind a [#] otherwise. *)
Definition location_hash_text (m : Model) : string :=
  if String.eqb (location_hash m) "" then "" else "#" ++ location_hash m.

(** [str.substring(1)] *)
Definition substring1 (str : string) : string :=
  match str with
  | EmptyString => EmptyString
  | String _ rest => rest
  end.

(** The white space of ASCII: tab, line feed, vertical tab, form feed,
    carriage return and space. *)
Definition is_space (c : ascii) : bool :=
  let n := nat_of_ascii c in
  ((9 <=? n)%nat && (n <=? 13)%nat) || (n =? 32)%nat.

Fixpoint trim_start (str : string) : string :=
  match str with
  | EmptyString => EmptyString
  | String c rest => if is_space c then trim_start rest else str
  end.

Fixpoint trim_end (str : string) : string :=
  match str with
  | EmptyString => EmptyString
  | String c rest =>
      match trim_end rest with
      | EmptyString => if is_space c then EmptyString else String c EmptyString
      | kept => String c kept
      end
  end.

(** [str.trim()], on ASCII subjects. *)
Definition trim (str : string) : string := trim_end (trim_start str).

Definition getHash (m : Model) : string := substring1 (location_hash_text m).

Definition hasHash (m : Model) : bool :=
  (1 <? String.length (location_hash_text m))%nat.

(** Sequencing: what follows a call runs only when the call returned. *)
Definition and_then (o : Outcome) (next : Model -> Outcome) : Outcome :=
  match o with
  | Returned _ m => next m
  | Threw m => Threw m
  end.

(** [activateDefaultTab]: [activateTab(self.tab_default())].  A string
    goes through [activateTab]; an array has an [includes] of its own
    and equals no tab's parent, so it becomes the active path as it is
    and the fragment as text; anything else has no [includes] to call. *)
Definition activateDefaultTab (m : Model) : Outcome :=
  match read "tab_default" m with
  | Some (VStr tab) => Returned VUndef (activateTab tab m)
  | Some (VArr items) =>
      Returned VUndef
        (set_location_hash (js_to_string (VArr items))
           (write "tab_active" (VArr items) m))
  | _ => Threw m
  end.

(** [activateSubTab]: [self.tab_sub_active] is a member the constructor
    never creates; calling it throws unless some record made it an
    observable. *)
Definition activateSubTab (tab : string) (m : Model) : Outcome :=
  match read "tab_sub_active" m with
  | None => Threw m
  | Some _ =>
      let m := write "tab_sub_active" (VStr tab) m in
      match read "tab_active" m with
      | None => Threw m
      | Some active =>
          Returned VUndef (set_location_hash (js_to_string active ++ "/" ++ tab) m)
      end
  end.

Definition onHashChange (m : Model) : Outcome :=
  let hash := trim (location_hash_text m) in
  if (1 <? String.length hash)%nat
  then Returned VUndef (activateTab (substring1 hash) m)
  else activateDefaultTab m.

(** [onTabClick]: [tab] and [parent] are what [el.data('tab')] and
    [el.data('tab-parent')] give for the link, which is [undefined]
    for an attribute the link does not have and may be a number, a
    boolean or [null] where the attribute's text reads as one. *)
Definition onTabClick (tab parent : value) (m : Model) : Outcome :=
  let path := "" in
  let path := if truthy parent then js_to_string parent ++ "/" else path in
  let path := path ++ js_to_string tab in
  Returned (VBool false) (activateTab path m).

(** [onSubTabClick]: the call goes to the [activateSubTab] of the
    constructor, as in the code while the model is [intact]. *)
Definition onSubTabClick (tab : string) (m : Model) : Outcome :=
  and_then (activateSubTab tab m) (fun m => Returned (VBool false) m).

(** [setupKnockoutBindings]: [target] becomes the element the selector
    finds, and stays what it was when the selector finds none. *)
Definition setupKnockoutBindings (found : bool) (m : Model) : Model :=
  if found then bind_target true m else m.

Section Handlers.

Variable api_url : string.
Variable csrf_token : string.
Variable valid : Model -> bool.

Definition onSaveClick (m : Model) : Outcome :=
  and_then (save api_url csrf_token valid m) (fun m => Returned (VBool false) m).

(** [setupValidation]: the first thing it does with [target] is call
    [target.find], the last is [target.valid()]; in between it
    registers methods and rules, which leave the model alone. *)
Definition setupValidation (m : Model) : Outcome :=
  match validate valid m with
  | None => Threw m
  | Some _ => Returned VUndef m
  end.

(** [init]: [found] says whether the selector finds an element.
    Applying the bindings to the page and registering the hash-change
    listener leave the model alone.  The calls go to the methods the
    constructor made, which is what the code does while [update] has
    put no observable in their place (see [intact] and [ordinary]). *)
Definition init (user_data : option (gmap string value)) (found autoload : bool)
    (m : Model) : Outcome :=
  let m := update user_data m in
  let m := setupKnockoutBindings found m in
  and_then (if hasHash m
            then Returned VUndef (activateTab (getHash m) m)
            else activateDefaultTab m)
    (fun m =>
       and_then (setupValidation m)
         (fun m =>
            if autoload
            then Returned VUndef (load api_url csrf_token m)
            else Returned VUndef m)).

(** What the page and the server do to the model, one event at a
    time.  An input can only be bound to an observable that exists. *)
Inductive Event : Type :=
  | EvInit (user_data : option (gmap string value)) (found autoload : bool)
  | EvEdit (key : string) (v : value)
  | EvLoad
  | EvLoaded (result : Response)
  | EvSaveClick
  | EvSaved (result : Response)
  | EvHashChange
  | EvTabClick (tab parent : value)
  | EvSubTabClick (tab : string).

Definition handle (e : Event) (m : Model) : Model :=
  match e with
  | EvInit user_data found autoload => model_of (init user_data found autoload m)
  | EvEdit key v =>
      match read key m with
      | Some _ => edit valid key v m
      | None => m
      end
  | EvLoad => load api_url csrf_token m
  | EvLoaded result => model_of (onDataLoaded result m)
  | EvSaveClick => model_of (onSaveClick m)
  | EvSaved result => model_of (onDataSaved result m)
  | EvHashChange => model_of (onHashChange m)
  | EvTabClick tab parent => model_of (onTabClick tab parent m)
  | EvSubTabClick tab => model_of (onSubTabClick tab m)
  end.

Definition run (events : list Event) (m : Model) : Model :=
  foldl (fun m e => handle e m) m events.

End Handlers.

(** The records an event hands to [update]. *)
Definition records_of (e : Event) : list (option (gmap string value)) :=
  match e with
  | EvInit user_data _ _ => [user_data]
  | EvLoaded result =>
      match payload result with
      | Some p => [legacy p]
      | None => []
      end
  | EvSaved result => [data result]
  | _ => []
  end.

(** ** The [setting] binding ([ko.bindingHandlers.setting]) *)

Module SettingBinding.

(** [a || b] *)
Definition js_or (a b : value) : value := if truthy a then a else b.

(** [el.data(name)]: the element's data, [undefined] where it has none. *)
Definition data_of (el : gmap string value) (name : string) : value :=
  default VUndef (el !! name).

Record SwitchOptions : Type := mkOptions {
  handleWidth : value;
  offColor : value;
  offText : value;
  onColor : value;
  onText : value;
  state : value;
  size : value
}.

(** One entry of [profiles]; the five differ in their two colours only. *)
Definition profile_options (off on : string) (el : gmap string value)
    (observed : value) : SwitchOptions :=
  mkOptions (js_or (data_of el "handle-width") (VNum 55))
            (js_or (data_of el "off-color") (VStr off))
            (js_or (data_of el "off-text") (VStr "Disabled"))
            (js_or (data_of el "on-color") (VStr on))
            (js_or (data_of el "on-text") (VStr "Enabled"))
            observed
            (VStr "mini").

Definition profiles (el : gmap string value) (observed : value)
    : list (string * SwitchOptions) :=
  [ ("enabled", profile_options "secondary" "primary" el observed);
    ("enabled-danger-off", profile_options "danger" "success" el observed);
    ("enabled-danger-on", profile_options "success" "danger" el observed);
    ("enabled-warning-off", profile_options "warning" "success" el observed);
    ("enabled-warning-on", profile_options "success" "warning" el observed) ].

(** The members every object literal inherits from [Object.prototype]. *)
Definition object_prototype_names : list string :=
  [ "constructor"; "toString"; "toLocaleString"; "valueOf"; "hasOwnProperty";
    "isPrototypeOf"; "propertyIsEnumerable"; "__proto__";
    "__defineGetter__"; "__defineSetter__"; "__lookupGetter__"; "__lookupSetter__" ].

(** [profiles[profile]]: an entry of the table, a member inherited from
    [Object.prototype] (a function or an object, truthy either way), or
    [undefined]. *)
Inductive Member : Type :=
  | Own (options : SwitchOptions)
  | Inherited (name : string)
  | Missing.

Definition member (table : list (string * SwitchOptions)) (profile : value) : Member :=
  let name := js_to_string profile in
  match List.find (fun entry => String.eqb (fst entry) name) table with
  | Some entry => Own (snd entry)
  | None =>
      if existsb (String.eqb name) object_prototype_names
      then Inherited name
      else Missing
  end.

(** What [init] does to the element: it logs an error and stops, or it
    starts the switch with what [profiles[profile] || profiles['enabled']]
    gives and listens for its changes. *)
Inductive Started : Type :=
  | Unknown (logged : string)
  | Switch (options : Member).

Definition init (el : gmap string value) (observed : value) : Started :=
  let profile := data_of el "profile" in
  let table := profiles el observed in
  let unknown :=
    match profile with
    | VStr name =>
        (0 <? String.length name)%nat
        && match member table profile with Missing => true | _ => false end
    | _ => false
    end in
  if unknown then Unknown ("Unknown profile: " ++ js_to_string profile)
  else
    Switch match member table profile with
           | Missing => member table (VStr "enabled")
           | found => found
           end.

(** The [switchChange.setting] listener: [valueAccessor()(state)], where
    the accessor gives the observable [key] and the switch reports a
    boolean. *)
Definition on_switch_change (key : string) (switched : bool) (m : Model) : Model :=
  write key (VBool switched) m.

(** [update]: the switch is set to the observable's value; [None] is
    the [TypeError] of an observable that does not exist. *)
Definition update (key : string) (m : Model) : option value := read key m.

End SettingBinding.

(** ** Notions the properties are stated with *)

(** The six provider toggles, in the order [auth_enabled] reads them. *)
Definition provider_toggles : list string :=
  [ "local_db_enabled"; "ldap_enabled"; "google_oauth_enabled";
    "github_oauth_enabled"; "azure_oauth_enabled"; "oidc_oauth_enabled" ].

(** Parents are top-level identifiers: none contains a slash. *)
Definition flat_parents (items : list Tab) : Prop :=
  Forall (fun t => forall p, tab_parent t = Some p -> includes "/" p = false) items.



(** Both flags are booleans, not both [true], and [defaults] has no
    entry for either (so [update] leaves them alone). *)
Definition flags_inv (m : Model) : Prop :=
  defaults m !! "saved" = None
  ∧ defaults m !! "save_failed" = None
  ∧ exists a b, read "saved" m = Some (VBool a)
                ∧ read "save_failed" m = Some (VBool b)
                ∧ a && b = false.

(** The verdict of a form in which only [ldap_uri]'s [required] rule
    can fail: it does when LDAP is enabled and the field is empty. *)
Definition ldap_uri_given (m : Model) : bool :=
  match Validation.ldap_enabled m, read "ldap_uri" m with
  | Some enabled, Some (VStr "") => negb (truthy enabled)
  | _, _ => true
  end.

(** [m'] has every observable and every [defaults] entry of [m]. *)
Definition grows (m m' : Model) : Prop :=
  (forall key, is_Some (read key m) -> is_Some (read key m'))
  ∧ (forall key, is_Some (defaults m !! key) -> is_Some (defaults m' !! key)).

(** [key] is no observable of [m] and has no entry in its [defaults]. *)
Definition absent (key : string) (m : Model) : Prop :=
  read key m = None ∧ defaults m !! key = None.

(** No record the event hands to [update] has a property [key]. *)
Definition event_omits (key : string) (e : Event) : Prop :=
  Forall (omits key) (records_of e).

Section Footprint.

Variable api_url : string.
Variable csrf_token : string.

(** A request as the model sends them: a POST to the endpoint with the
    token, and with it either nothing (load) or [commit: 1] and the
    serialization of a model whose saving flag is up (save). *)
Definition posts (r : Request) : Prop :=
  req_url r = api_url ∧ req_type r = "POST" ∧ req_csrf_token r = csrf_token
  ∧ (req_commit r = None ∧ req_data r = None
     ∨ req_commit r = Some 1%Z
       ∧ exists sent, req_data r = Some (toJSON sent)
                      ∧ read "saving" sent = Some (VBool true)).

(** The smallest changes a handler is made of: a write to an
    observable of the constructor or to one that exists, an [update]
    with one of the event's records, a request, or a change to the
    fragment and [target] only. *)
Inductive touch (records : list (option (gmap string value))) : Model -> Model -> Prop :=
  | touch_write m key v :
      is_field key = false ∨ is_Some (read key m) ->
      touch records m (write key v m)
  | touch_update m instance :
      In instance records -> touch records m (update instance m)
  | touch_ajax m r :
      posts r -> touch records m (ajax r m)
  | touch_page m m' :
      obs m' = obs m -> defaults m' = defaults m ->
      requests m' = requests m -> tabs m' = tabs m ->
      touch records m m'.

End Footprint.

(** Whether a predicate of the rule table holds: its result is truthy. *)
Definition applies (depends : Model -> option value) (m : Model) : bool :=
  match depends m with
  | Some v => truthy v
  | None => false
  end.

(** The providers with an auto-configure switch: the provider's toggle,
    the switch, and the two predicates built on them. *)
Definition auto_configure_predicates
    : list (string * string * (Model -> option value) * (Model -> option value)) :=
  [ ("google_oauth_enabled", "google_oauth_auto_configure",
     Validation.google_oauth_auto_configure_enabled,
     Validation.google_oauth_auto_configure_disabled);
    ("github_oauth_enabled", "github_oauth_auto_configure",
     Validation.github_oauth_auto_configure_enabled,
     Validation.github_oauth_auto_configure_disabled);
    ("azure_oauth_enabled", "azure_oauth_auto_configure",
     Validation.azure_oauth_auto_configure_enabled,
     Validation.azure_oauth_auto_configure_disabled);
    ("oidc_oauth_enabled", "oidc_oauth_auto_configure",
     Validation.oidc_oauth_auto_configure_enabled,
     Validation.oidc_oauth_auto_configure_disabled) ].

(** The predicates that compare two observables with [1]. *)
Definition strict_one_predicates
    : list (string * string * (Model -> option value)) :=
  [ ("local_db_enabled", "pwd_enforce_characters", Validation.enforce_characters);
    ("local_db_enabled", "pwd_enforce_complexity", Validation.enforce_complexity);
    ("ldap_enabled", "ldap_sg_enabled", Validation.ldap_sg_enabled);
    ("ldap_enabled", "autoprovisioning", Validation.ldap_ap_enabled);
    ("azure_oauth_enabled", "azure_sg_enabled", Validation.azure_gs_enabled) ].

(** Every key of the static defaults table is an observable of [m]. *)
Definition fields_exist (m : Model) : Prop :=
  forall key, is_Some ((list_to_map static_defaults : gmap string value) !! key) ->
              is_Some (read key m).

(** The names of the five switch profiles. *)
Definition profile_names : list string :=
  [ "enabled"; "enabled-danger-off"; "enabled-danger-on";
    "enabled-warning-off"; "enabled-warning-on" ].

(** The character classes a UUID as [uuidRegExp] spells it goes
    through, one per character. *)
Definition uuid_shape : list RegExp.cls :=
  let hex := Validation.hex in
  (replicate 8 hex ++ [RegExp.Lit "-"] ++ replicate 4 hex ++ [RegExp.Lit "-"]
   ++ [RegExp.Range "1" "5"] ++ replicate 3 hex ++ [RegExp.Lit "-"]
   ++ [RegExp.Union (RegExp.Lit "8")
         (RegExp.Union (RegExp.Lit "9") (RegExp.Union (RegExp.Lit "a") (RegExp.Lit "b")))]
   ++ replicate 3 hex ++ [RegExp.Lit "-"] ++ replicate 12 hex)%list.

(** The first characters of [subject] are, one by one and without
    regard to case, in the classes of [shape]; [rest] judges what
    follows them. *)
Fixpoint shape_then (shape : list RegExp.cls) (subject : list ascii)
    (rest : list ascii -> bool) : bool :=
  match shape with
  | [] => rest subject
  | k :: shape' =>
      match subject with
      | [] => false
      | c :: subject' => RegExp.cls_match true k c && shape_then shape' subject' rest
      end
  end.

Definition starts_with_uuid (str : string) : bool :=
  shape_then uuid_shape (list_ascii_of_string str) (fun _ => true).

Definition is_digit (c : ascii) : bool :=
  let n := nat_of_ascii c in (48 <=? n)%nat && (n <=? 57)%nat.

(** The last character of the subject is a decimal digit. *)
Fixpoint last_is_digit (subject : list ascii) : bool :=
  match subject with
  | [] => false
  | [c] => is_digit c
  | _ :: subject' => last_is_digit subject'
  end.

Definition ends_in_digit (str : string) : bool :=
  last_is_digit (list_ascii_of_string str).

(** The digits branch at one position: everything from here on is a
    digit, and there is at least one. *)
Fixpoint all_digits (subject : list ascii) : bool :=
  match subject with
  | [] => false
  | c :: subject' =>
      is_digit c && (all_digits subject' || match subject' with [] => true | _ => false end)
  end.

(** The classes a pattern made of classes, counted classes and
    sequences goes through; [None] for any other pattern. *)
Fixpoint shape_of (r : RegExp.re) : option (list RegExp.cls) :=
  match r with
  | RegExp.Cls k => Some [k]
  | RegExp.Rep n k => Some (replicate n k)
  | RegExp.Seq a b =>
      match shape_of a, shape_of b with
      | Some sa, Some sb => Some (sa ++ sb)%list
      | _, _ => None
      end
  | _ => None
  end.

(** The members of [self] that are not observables of the constructor:
    the tab table and the methods.  [update] turns a member into an
    observable when a record (or [defaults]) has a key of its name. *)
Definition member_names : list string :=
  [ "tabs"; "init"; "load"; "save"; "update"; "setupKnockoutBindings";
    "setupListeners"; "destroyListeners"; "setupValidation"; "activateTab";
    "activateSubTab"; "activateDefaultTab"; "getHash"; "hasHash"; "observe";
    "onDataLoaded"; "onDataSaved"; "onHashChange"; "onSaveClick"; "onTabClick";
    "onSubTabClick" ].

(** No member has been turned into an observable, and [defaults] holds
    no key that would do so at the next [update]. *)
Definition intact (m : Model) : Prop :=
  Forall (fun name => absent name m) member_names.

(** The record has no property named like a member. *)
Definition ordinary (instance : option (gmap string value)) : Prop :=
  Forall (fun name => omits name instance) member_names.

(** A character the browser keeps as written in a fragment: printable
    ASCII other than the space, the double quote, the angle brackets
    and the backquote. *)
Definition kept_in_fragment (c : ascii) : bool :=
  let n := nat_of_ascii c in
  (33 <=? n)%nat && (n <=? 126)%nat
  && negb (n =? 34)%nat && negb (n =? 60)%nat
  && negb (n =? 62)%nat && negb (n =? 96)%nat.

(** A text that [window.location.hash] gives back as it was assigned:
    it does not start with [#] and all its characters are kept. *)
Definition verbatim (text : string) : bool :=
  negb (String.prefix "#" text)
  && forallb kept_in_fragment (list_ascii_of_string text).

(** No object in the tree, at any depth, has a property named
    [hasOwnProperty]. *)
Fixpoint plain_tree (v : value) : bool :=
  match v with
  | VArr items => forallb plain_tree items
  | VObj props =>
      negb (existsb (fun p => String.eqb (fst p) "hasOwnProperty") props)
      && forallb (fun p => plain_tree (snd p)) props
  | _ => true
  end.

(** ** Properties *)

(** *** [update] *)

Lemma obs_update instance m :
  obs (update instance m) = extend (defaults m) instance ∪ obs m.
Proof.
  unfold update; simpl.
  apply (map_fold_weak_ind (fun r d => r = d ∪ obs m)).
  - by rewrite (left_id_L ∅ (∪)).
  - intros k v d r _ ->. unfold assign.
    destruct ((d ∪ obs m) !! k); by rewrite insert_union_l.
Qed.

Lemma defaults_update instance m :
  defaults (update instance m) = extend (defaults m) instance.
Proof. reflexivity. Qed.


Lemma extend_lookup_omitted dst instance k :
  omits k instance -> extend dst instance !! k = dst !! k.
Proof.
  destruct instance as [o|]; simpl; [|done].
  intros Hk. apply lookup_union_r.
  apply map_lookup_filter_None. left. done.
Qed.

Lemma read_update_default instance m k v :
  extend (defaults m) instance !! k = Some v ->
  read k (update instance m) = Some v.
Proof.
  intros H. unfold read. rewrite obs_update. by apply lookup_union_Some_l.
Qed.

Lemma read_update_other instance m k :
  extend (defaults m) instance !! k = None ->
  read k (update instance m) = read k m.
Proof.
  intros H. unfold read. rewrite obs_update. by apply lookup_union_r.
Qed.

Lemma read_write_eq k v m : read k (write k v m) = Some v.
Proof. unfold read, write; simpl. apply lookup_insert_eq. Qed.

Lemma read_write_ne k k' v m : k ≠ k' -> read k' (write k v m) = read k' m.
Proof. intros H. unfold read, write; simpl. by apply lookup_insert_ne. Qed.

Lemma defaults_write k v m : defaults (write k v m) = defaults m.
Proof. reflexivity. Qed.

Lemma read_set_location_hash k tab m : read k (set_location_hash tab m) = read k m.
Proof. reflexivity. Qed.

Lemma read_ajax k r m : read k (ajax r m) = read k m.
Proof. reflexivity. Qed.

(** Reads through a chain of writes to literal member names. *)
Ltac read_writes :=
  repeat first [ rewrite read_write_eq
               | rewrite read_write_ne by discriminate
               | rewrite read_set_location_hash
               | rewrite read_ajax ].





(** *** The validation methods *)

Import Validation.

(** C8. The [uuid] method accepts a version-1 UUID and the bare
    integer [42], and rejects [not-a-uuid]. *)
Theorem uuid_accepts_uuid_and_integer :
  uuid "123e4567-e89b-12d3-a456-426614174000" = true
  ∧ uuid "42" = true
  ∧ uuid "not-a-uuid" = false.
Proof. repeat split; reflexivity. Qed.

Lemma auth_enabled_counts m v1 v2 v3 v4 v5 v6 :
  read "local_db_enabled" m = Some v1 ->
  read "ldap_enabled" m = Some v2 ->
  read "google_oauth_enabled" m = Some v3 ->
  read "github_oauth_enabled" m = Some v4 ->
  read "azure_oauth_enabled" m = Some v5 ->
  read "oidc_oauth_enabled" m = Some v6 ->
  auth_enabled m = Some (existsb truthy [v1; v2; v3; v4; v5; v6]).
Proof.
  intros H1 H2 H3 H4 H5 H6. unfold auth_enabled, count_if.
  rewrite H1, H2, H3, H4, H5, H6. simpl.
  by destruct (truthy v1), (truthy v2), (truthy v3),
              (truthy v4), (truthy v5), (truthy v6).
Qed.

(** C3. With the six provider toggles holding [v1] .. [v6], the
    [auth_enabled] method reports invalid exactly when all six are
    falsy and valid as soon as one is truthy; the rule table attaches
    the method to each of the six toggle fields, and to no other. *)
Theorem auth_enabled_invalid_iff_all_off m v1 v2 v3 v4 v5 v6 :
  read "local_db_enabled" m = Some v1 ->
  read "ldap_enabled" m = Some v2 ->
  read "google_oauth_enabled" m = Some v3 ->
  read "github_oauth_enabled" m = Some v4 ->
  read "azure_oauth_enabled" m = Some v5 ->
  read "oidc_oauth_enabled" m = Some v6 ->
  (auth_enabled m = Some false
     <-> Forall (fun v => truthy v = false) [v1; v2; v3; v4; v5; v6])
  ∧ (auth_enabled m = Some true
     <-> Exists (fun v => truthy v = true) [v1; v2; v3; v4; v5; v6])
  ∧ Forall (fun field => rules_of field = Some (ByName "auth_enabled"))
           provider_toggles
  ∧ fields_with "auth_enabled" = provider_toggles.
Proof.
  intros H1 H2 H3 H4 H5 H6.
  rewrite (auth_enabled_counts m v1 v2 v3 v4 v5 v6) by done.
  split; [|split; [|split]].
  - rewrite !Forall_cons, Forall_nil. simpl.
    destruct (truthy v1), (truthy v2), (truthy v3),
             (truthy v4), (truthy v5), (truthy v6); simpl; intuition congruence.
  - rewrite !Exists_cons, Exists_nil. simpl.
    destruct (truthy v1), (truthy v2), (truthy v3),
             (truthy v4), (truthy v5), (truthy v6); simpl; intuition congruence.
  - repeat constructor.
  - reflexivity.
Qed.

Lemma auth_enabled_invalid_iff_all_off_witness :
  let off := update (Some {[ "local_db_enabled" := VBool false ]}) (construct "") in
  let one := update (Some {[ "ldap_enabled" := VBool true ]}) off in
  auth_enabled off = Some false ∧ auth_enabled one = Some true.
Proof.
  split.
  - apply (auth_enabled_invalid_iff_all_off
             (update (Some {[ "local_db_enabled" := VBool false ]}) (construct ""))
             (VBool false) (VBool false) (VBool false)
             (VBool false) (VBool false) (VBool false));
      try reflexivity.
    repeat constructor.
  - apply (auth_enabled_invalid_iff_all_off
             (update (Some {[ "ldap_enabled" := VBool true ]})
                (update (Some {[ "local_db_enabled" := VBool false ]}) (construct "")))
             (VBool false) (VBool true) (VBool false)
             (VBool false) (VBool false) (VBool false));
      try reflexivity.
    right. left. reflexivity.
Defined.

Lemma ldap_exclusive_counts m a b :
  read "ldap_sg_enabled" m = Some a ->
  read "autoprovisioning" m = Some b ->
  ldap_exclusive m = Some (negb (strict_eq_num a 1 && strict_eq_num b 1)).
Proof.
  intros Ha Hb. unfold ldap_exclusive, count_if. rewrite Ha, Hb. simpl.
  by destruct (strict_eq_num a 1), (strict_eq_num b 1).
Qed.

(** X1. What [ldap_exclusive] does decide: with both flags present,
    invalid exactly when each of them is the number [1]. *)
Lemma ldap_exclusive_invalid_iff_both_one m a b :
  read "ldap_sg_enabled" m = Some a ->
  read "autoprovisioning" m = Some b ->
  ldap_exclusive m = Some false <-> a = VNum 1 ∧ b = VNum 1.
Proof.
  intros Ha Hb. rewrite (ldap_exclusive_counts m a b) by done.
  split.
  - intros [= E]. apply negb_false_iff, andb_true_iff in E as [Ea Eb].
    destruct a, b; simpl in *; try done.
    apply Z.eqb_eq in Ea, Eb. by subst.
  - by intros [-> ->].
Qed.

Lemma ldap_exclusive_invalid_iff_both_one_witness :
  ldap_exclusive
    (update (Some {[ "ldap_sg_enabled" := VNum 1; "autoprovisioning" := VNum 1 ]})
       (construct ""))
  = Some false.
Proof.
  apply (ldap_exclusive_invalid_iff_both_one _ (VNum 1) (VNum 1));
    [reflexivity | reflexivity | split; reflexivity].
Defined.

(** The alternation in [uuidRegExp] leaves [^] with the UUID branch
    and [$] with the digits branch: a subject that merely ends in a
    digit is accepted, a version-6 UUID and free text among them, and
    so is a UUID followed by anything. *)
Lemma uuid_accepts_trailing_digit :
  uuid "123e4567-e89b-62d3-a456-426614174000" = true
  ∧ uuid "not-a-uuid42" = true
  ∧ uuid "123e4567-e89b-12d3-a456-426614174000 and more" = true
  ∧ uuid "" = false.
Proof. repeat split; reflexivity. Qed.

(** C2, at the input where the code and the claim part: both flags are
    the boolean [true] (the type their defaults have), both are truthy,
    and [ldap_exclusive] still reports valid, because [true === 1] is
    false; the method is attached to both fields. *)
Theorem ldap_exclusive_accepts_both_true :
  let m := update (Some {[ "ldap_sg_enabled" := VBool true;
                           "autoprovisioning" := VBool true ]}) (construct "") in
  read "ldap_sg_enabled" m = Some (VBool true)
  ∧ read "autoprovisioning" m = Some (VBool true)
  ∧ truthy (VBool true) = true
  ∧ ldap_exclusive m = Some true
  ∧ fields_with "ldap_exclusive" = ["ldap_sg_enabled"; "autoprovisioning"].
Proof. repeat split; reflexivity. Qed.

(** *** Tab navigation *)

Lemma includes_slash_app tab rest : includes "/" (tab ++ "/" ++ rest) = true.
Proof.
  induction tab as [|c tab IH]; simpl.
  - by destruct rest.
  - rewrite IH. apply orb_true_r.
Qed.

Lemma parent_is_eq t tab : parent_is t tab = true -> tab_parent t = Some tab.
Proof.
  unfold parent_is. destruct (tab_parent t) as [p|]; [|done].
  by intros ->%String.eqb_eq.
Qed.

Lemma qualify_qualified items tab :
  flat_parents items -> includes "/" tab = true -> qualify items tab = tab.
Proof.
  unfold qualify. induction 1 as [|t items Ht _ IH]; intros Hs; simpl; [done|].
  destruct (parent_is t tab) eqn:Hp; simpl; [|by apply IH].
  apply parent_is_eq, Ht in Hp. congruence.
Qed.

Lemma qualify_default_child items tab :
  flat_parents items ->
  qualify items tab =
    match List.find (fun t => parent_is t tab && tab_def t) items with
    | Some child => tab ++ "/" ++ tab_id child
    | None => tab
    end.
Proof.
  intros Hflat. induction Hflat as [|t items Ht Hflat IH]; simpl; [done|].
  unfold qualify in *. simpl.
  destruct (parent_is t tab && tab_def t) eqn:E; [|done].
  apply (qualify_qualified items); [done|]. apply includes_slash_app.
Qed.

Lemma read_activateTab tab m :
  let path := if negb (includes "/" tab) then qualify (tabs m) tab else tab in
  read "tab_active" (activateTab tab m) = Some (VStr path)
  ∧ location_hash (activateTab tab m) = path
  ∧ hash_writes (activateTab tab m) = path :: hash_writes m.
Proof.
  unfold activateTab, set_location_hash, read, write; simpl.
  by rewrite lookup_insert_eq.
Qed.

(** C7. Where the tabs' parents are top-level identifiers, activating
    a path without a slash whose parent has a child marked default
    sets the active path (and the fragment) to the path, a slash and
    that child's id; activating a path that already contains a slash
    sets exactly that path. *)
Theorem activateTab_appends_default_child (m : Model) :
  flat_parents (tabs m) ->
  (forall tab child,
      includes "/" tab = false ->
      List.find (fun t => parent_is t tab && tab_def t) (tabs m) = Some child ->
      read "tab_active" (activateTab tab m) = Some (VStr (tab ++ "/" ++ tab_id child))
      ∧ location_hash (activateTab tab m) = tab ++ "/" ++ tab_id child)
  ∧ (forall tab,
      includes "/" tab = true ->
      read "tab_active" (activateTab tab m) = Some (VStr tab)
      ∧ location_hash (activateTab tab m) = tab).
Proof.
  intros Hflat. split.
  - intros tab child Hs Hc.
    destruct (read_activateTab tab m) as (Hr & Hh & _).
    rewrite Hs, (qualify_default_child _ _ Hflat), Hc in Hr, Hh. done.
  - intros tab Hs.
    destruct (read_activateTab tab m) as (Hr & Hh & _).
    rewrite Hs in Hr, Hh. done.
Qed.

Lemma flat_parents_initial : flat_parents initial_tabs.
Proof.
  unfold flat_parents, initial_tabs.
  repeat constructor; simpl; intros p [= <-]; reflexivity.
Qed.

(** The constructor leaves every member of the model in place, and no
    record at all names none of them. *)
Lemma intact_construct (fragment : string) : intact (construct fragment).
Proof.
  unfold intact, member_names.
  repeat first [ apply Forall_nil_2 | apply Forall_cons_2; [split; reflexivity|] ].
Qed.

Lemma ordinary_none : ordinary None.
Proof.
  unfold ordinary, member_names.
  repeat first [ apply Forall_nil_2 | apply Forall_cons_2; [exact I|] ].
Qed.

Lemma kept_is_not_space (c : ascii) : kept_in_fragment c = true -> is_space c = false.
Proof. by destruct c as [[] [] [] [] [] [] [] []]. Qed.

Lemma verbatim_trim_end (text : string) :
  forallb kept_in_fragment (list_ascii_of_string text) = true -> trim_end text = text.
Proof.
  induction text as [|c rest IH]; [done|].
  simpl. intros [Hc Hrest]%andb_prop.
  rewrite (IH Hrest). destruct rest; [|done].
  by rewrite (kept_is_not_space c Hc).
Qed.

Lemma activateTab_appends_default_child_witness :
  read "tab_active" (activateTab "authentication" (construct ""))
    = Some (VStr "authentication/local")
  ∧ read "tab_active" (activateTab "authentication/ldap" (construct ""))
    = Some (VStr "authentication/ldap").
Proof.
  destruct (activateTab_appends_default_child (construct "") flat_parents_initial)
    as [Hparent Hfull].
  split.
  - apply (Hparent "authentication"
             (mkTab "local" "Local" "fa fa-user-lock" (Some "authentication") true));
      reflexivity.
  - apply (Hfull "authentication/ldap"). reflexivity.
Defined.

(** C5, where the claim fails.  The fragment already equals the path
    being activated and [activateTab] assigns it all the same; and in a
    state whose fragment has moved on ([mail]) while the active path
    has not, activating the active path changes the fragment. *)
Lemma activateTab_assigns_fragment_anyway :
  let path := "authentication/ldap" in
  let m := activateTab path (construct "") in
  let stale := write "tab_active" (VStr path) (construct "mail") in
  (read "tab_active" m = Some (VStr path)
   ∧ location_hash m = path
   ∧ hash_writes (activateTab path m) = path :: hash_writes m
   ∧ hash_writes (activateTab path m) ≠ hash_writes m)
  ∧ (read "tab_active" stale = Some (VStr path)
     ∧ location_hash (activateTab path stale) ≠ location_hash stale).
Proof. repeat split; try reflexivity; discriminate. Qed.

(** C5, amended.  In a state whose fragment equals the active path,
    activating that path (one that contains a slash) changes neither
    the observables nor the fragment, nor anything else of the model;
    the fragment is assigned once more, with the value it holds. *)
Theorem activateTab_active_path_is_noop (m : Model) (path : string) :
  read "tab_active" m = Some (VStr path) ->
  includes "/" path = true ->
  location_hash m = path ->
  let m' := activateTab path m in
  obs m' = obs m
  ∧ location_hash m' = location_hash m
  ∧ hash_writes m' = location_hash m :: hash_writes m
  ∧ tabs m' = tabs m ∧ defaults m' = defaults m
  ∧ target m' = target m ∧ requests m' = requests m.
Proof.
  intros Hactive Hs Hhash. unfold activateTab. rewrite Hs. simpl.
  rewrite Hhash. repeat split. by apply insert_id.
Qed.

Lemma activateTab_active_path_is_noop_witness :
  let m := activateTab "authentication" (construct "") in
  obs (activateTab "authentication/local" m) = obs m
  ∧ location_hash (activateTab "authentication/local" m) = "authentication/local".
Proof.
  destruct (activateTab_active_path_is_noop
              (activateTab "authentication" (construct "")) "authentication/local")
    as (Hobs & Hhash & _); try reflexivity.
  split; [exact Hobs | exact Hhash].
Defined.

(** *** Loading and saving *)

Lemma strict_eq_num_true v k : strict_eq_num v k = true <-> v = VNum k.
Proof.
  destruct v; simpl; try (split; intros; discriminate).
  rewrite Z.eqb_eq. split; congruence.
Qed.

Lemma strict_eq_num_false v k : strict_eq_num v k = false <-> v ≠ VNum k.
Proof. rewrite <- strict_eq_num_true. by destruct (strict_eq_num v k). Qed.

Lemma toJSON_lookup m key v :
  key ≠ "tabs" -> read key m = Some v -> v ≠ VUndef -> toJSON m !! key = Some v.
Proof.
  intros Hk Hr Hv. unfold toJSON. apply map_lookup_filter_Some. split.
  - by rewrite lookup_insert_ne.
  - simpl. by destruct v.
Qed.

(** C6. A load response whose status is [0] makes the handler return
    [false] after storing the response's messages, the [danger] class
    and a cleared loading flag; every other observable, each settings
    field among them, and the [defaults] table are as before.  Any
    other status takes the success path: given a payload, the legacy
    record is applied through [update] and the class is [info]. *)
Theorem onDataLoaded_failure_keeps_fields (result : Response) (m : Model) :
  (status result = VNum 0 ->
     let m' := model_of (onDataLoaded result m) in
     onDataLoaded result m = Returned (VBool false) m'
     ∧ read "messages" m' = Some (messages result)
     ∧ read "messages_class" m' = Some (VStr "danger")
     ∧ read "loading" m' = Some (VBool false)
     ∧ (forall key, key ≠ "messages" -> key ≠ "messages_class" -> key ≠ "loading" ->
                    read key m' = read key m)
     ∧ (forall key, is_field key = true -> read key m' = read key m)
     ∧ defaults m' = defaults m)
  ∧ (status result ≠ VNum 0 ->
     forall p, payload result = Some p ->
     let m' := model_of (onDataLoaded result m) in
     onDataLoaded result m = Returned VUndef m'
     ∧ read "messages_class" m' = Some (VStr "info")
     ∧ defaults m' = extend (defaults m) (legacy p)
     ∧ (forall key v, is_field key = true ->
                      extend (defaults m) (legacy p) !! key = Some v ->
                      read key m' = Some v)).
Proof.
  split.
  - intros Hs%strict_eq_num_true. unfold onDataLoaded. rewrite Hs. simpl.
    assert (Hframe : forall key,
               key ≠ "messages" -> key ≠ "messages_class" -> key ≠ "loading" ->
               read key (write "loading" (VBool false)
                          (write "messages" (messages result)
                             (write "messages_class" (VStr "danger") m)))
               = read key m).
    { intros key H1 H2 H3. by rewrite !read_write_ne. }
    repeat split; try done; try (by read_writes).
    intros key Hf. apply Hframe; intros ->; discriminate.
  - intros Hs%strict_eq_num_false p Hp. unfold onDataLoaded. rewrite Hs, Hp. simpl.
    repeat split; try (by read_writes).
    intros key v Hf Hk.
    rewrite !read_write_ne by (intros <-; discriminate).
    by apply read_update_default.
Qed.

Lemma onDataLoaded_failure_keeps_fields_witness :
  let m := update (Some {[ "ldap_uri" := VStr "ldap://a" ]}) (construct "") in
  let failure := mkResponse (VNum 0) (VArr [VStr "denied"]) None None in
  let success := mkResponse (VNum 2) (VArr [])
                   (Some (mkPayload (Some {[ "ldap_uri" := VStr "ldap://b" ]}) VUndef))
                   None in
  read "ldap_uri" (model_of (onDataLoaded failure m)) = Some (VStr "ldap://a")
  ∧ read "ldap_uri" (model_of (onDataLoaded success m)) = Some (VStr "ldap://b").
Proof.
  split.
  - destruct (onDataLoaded_failure_keeps_fields
                (mkResponse (VNum 0) (VArr [VStr "denied"]) None None)
                (update (Some {[ "ldap_uri" := VStr "ldap://a" ]}) (construct "")))
      as [Hfail _].
    destruct (Hfail eq_refl) as (_ & _ & _ & _ & _ & Hfields & _).
    rewrite (Hfields "ldap_uri" eq_refl). reflexivity.
  - destruct (onDataLoaded_failure_keeps_fields
                (mkResponse (VNum 2) (VArr [])
                   (Some (mkPayload (Some {[ "ldap_uri" := VStr "ldap://b" ]}) VUndef))
                   None)
                (update (Some {[ "ldap_uri" := VStr "ldap://a" ]}) (construct "")))
      as [_ Hok].
    assert (Hne : VNum 2 ≠ VNum 0) by discriminate.
    destruct (Hok Hne _ eq_refl) as (_ & _ & _ & Hfields).
    apply Hfields; reflexivity.
Defined.

Section PageProperties.

Variable api_url : string.
Variable csrf_token : string.
Variable valid : Model -> bool.

(** C1. When the validation says no, [save] returns [false] and the
    model is what it was: no request, no flag touched.  When it says
    yes, [save] sets the saving flag and hands [$.ajax] one request,
    a POST to the endpoint carrying [commit: 1] and, as [data], the
    serialized model, which holds every defined observable, the
    whole settings record with them. *)
Theorem save_posts_only_valid_record (m : Model) :
  (validate valid m = Some false -> save api_url csrf_token valid m = Returned (VBool false) m)
  ∧ (validate valid m = Some true ->
     let m' := model_of (save api_url csrf_token valid m) in
     exists post,
       save api_url csrf_token valid m = Returned VUndef m'
       ∧ requests m' = post :: requests m
       ∧ req_url post = api_url
       ∧ req_type post = "POST"
       ∧ req_csrf_token post = csrf_token
       ∧ req_commit post = Some 1%Z
       ∧ req_data post = Some (toJSON m')
       ∧ read "saving" m' = Some (VBool true)
       ∧ (forall key, key ≠ "saving" -> read key m' = read key m)
       ∧ (forall key v, key ≠ "tabs" -> read key m' = Some v -> v ≠ VUndef ->
                        toJSON m' !! key = Some v)).
Proof.
  unfold save. split; intros ->; [done|].
  cbn [model_of]. eexists. repeat split.
  - apply read_write_eq.
  - intros key Hk. apply read_write_ne. congruence.
  - intros key v Hk Hr Hv. by apply toJSON_lookup.
Qed.

Lemma model_of_onElementChanged m : model_of (onElementChanged valid m) = m.
Proof. unfold onElementChanged. by destruct (validate valid m). Qed.

Lemma read_edit_eq key v m : read key (edit valid key v m) = Some v.
Proof. unfold edit. rewrite model_of_onElementChanged. apply read_write_eq. Qed.

Lemma read_edit_ne key key' v m : key ≠ key' -> read key' (edit valid key v m) = read key' m.
Proof.
  intros H. unfold edit. rewrite model_of_onElementChanged.
  by apply read_write_ne.
Qed.

Lemma is_field_not_flag key :
  is_field key = true -> key ≠ "saving" ∧ key ≠ "saved" ∧ key ≠ "save_failed".
Proof. intros H. repeat split; intros ->; discriminate. Qed.

Lemma display_flags m m' :
  read "saving" m' = read "saving" m ->
  read "saved" m' = read "saved" m ->
  read "save_failed" m' = read "save_failed" m ->
  display m' = display m.
Proof. intros H1 H2 H3. unfold display, flag. by rewrite H1, H2, H3. Qed.

(** C4, amended.  A valid save shows [Saving]; the response shows
    [Saved] or [SaveFailed]; an edit of a settings field, in whatever
    state, stores the value and leaves the three flags, hence the
    display state, as they are: the edit does not bring the display
    back to [Idle]. *)
Theorem edit_keeps_display_state :
  (forall m, validate valid m = Some true -> display (model_of (save api_url csrf_token valid m)) = Saving)
  ∧ (forall result m,
       display (model_of (onDataSaved result m))
       = if strict_eq_num (status result) 0 then SaveFailed else Saved)
  ∧ (forall m key v,
       is_field key = true ->
       read key (edit valid key v m) = Some v
       ∧ read "saving" (edit valid key v m) = read "saving" m
       ∧ read "saved" (edit valid key v m) = read "saved" m
       ∧ read "save_failed" (edit valid key v m) = read "save_failed" m
       ∧ display (edit valid key v m) = display m).
Proof.
  split; [|split].
  - intros m Hv. unfold save. rewrite Hv. simpl.
    unfold display, flag, read. simpl. by rewrite lookup_insert_eq.
  - intros result m. unfold onDataSaved.
    destruct (strict_eq_num (status result) 0); simpl;
      unfold display, flag; by read_writes.
  - intros m key v (H1 & H2 & H3)%is_field_not_flag.
    assert (Hsaving := read_edit_ne key "saving" v m H1).
    assert (Hsaved := read_edit_ne key "saved" v m H2).
    assert (Hfailed := read_edit_ne key "save_failed" v m H3).
    repeat split; try done.
    + apply read_edit_eq.
    + by apply display_flags.
Qed.

End PageProperties.

(** C4, where the claim fails: a save succeeds, the display state is
    [Saved], a settings field is edited, and the state is [Saved]
    still, not [Idle]; likewise for [SaveFailed]. *)
Lemma edit_leaves_saved_flag_up :
  let valid := fun _ : Model => true in
  let ready := bind_target true (update None (construct "")) in
  let ok := mkResponse (VNum 1) (VArr []) None (Some ∅) in
  let ko := mkResponse (VNum 0) (VArr [VStr "denied"]) None None in
  let saving := model_of (save "/admin/setting" "token" valid ready) in
  let saved := model_of (onDataSaved ok saving) in
  let failed := model_of (onDataSaved ko saving) in
  is_field "ldap_uri" = true
  ∧ display ready = Idle
  ∧ display saving = Saving
  ∧ display saved = Saved
  ∧ display (edit valid "ldap_uri" (VStr "ldap://a") saved) = Saved
  ∧ display failed = SaveFailed
  ∧ display (edit valid "ldap_uri" (VStr "ldap://a") failed) = SaveFailed.
Proof. vm_compute. repeat split; reflexivity. Qed.

Lemma edit_keeps_display_state_witness :
  let valid := fun _ : Model => true in
  let ready := bind_target true (update None (construct "")) in
  display (model_of (save "/admin/setting" "token" valid ready)) = Saving
  ∧ read "ldap_uri" (edit valid "ldap_uri" (VStr "ldap://a") ready)
    = Some (VStr "ldap://a")
  ∧ display (edit valid "ldap_uri" (VStr "ldap://a") ready) = display ready.
Proof.
  intros valid ready.
  destruct (edit_keeps_display_state "/admin/setting" "token" valid)
    as (Hsave & _ & Hedit).
  assert (Hvalid : validate valid ready = Some true) by (vm_compute; reflexivity).
  assert (Hfield : is_field "ldap_uri" = true) by reflexivity.
  destruct (Hedit ready "ldap_uri" (VStr "ldap://a") Hfield)
    as (Hread & _ & _ & _ & Hdisplay).
  exact (conj (Hsave ready Hvalid) (conj Hread Hdisplay)).
Defined.

Lemma save_posts_only_valid_record_witness :
  let ldap := update (Some {[ "ldap_enabled" := VBool true ]}) (construct "") in
  let empty := bind_target true ldap in
  let filled := write "ldap_uri" (VStr "ldap://a") empty in
  save "/admin/setting" "token" ldap_uri_given empty = Returned (VBool false) empty
  ∧ exists post,
      requests (model_of (save "/admin/setting" "token" ldap_uri_given filled)) = [post]
      ∧ req_commit post = Some 1%Z.
Proof.
  intros ldap empty filled.
  assert (Hempty : validate ldap_uri_given empty = Some false)
    by (vm_compute; reflexivity).
  assert (Hfilled : validate ldap_uri_given filled = Some true)
    by (vm_compute; reflexivity).
  split.
  - exact (proj1 (save_posts_only_valid_record
                    "/admin/setting" "token" ldap_uri_given empty) Hempty).
  - destruct (proj2 (save_posts_only_valid_record
                       "/admin/setting" "token" ldap_uri_given filled) Hfilled)
      as (post & _ & Hreq & _ & _ & _ & Hcommit & _).
    exists post. split; [exact Hreq | exact Hcommit].
Defined.

(** *** The two outcome flags *)

Lemma flags_inv_construct fragment : flags_inv (construct fragment).
Proof. repeat split. exists false, false. repeat split. Qed.

Lemma flags_inv_frame m m' :
  defaults m' = defaults m ->
  read "saved" m' = read "saved" m ->
  read "save_failed" m' = read "save_failed" m ->
  flags_inv m -> flags_inv m'.
Proof. intros Hd Hs Hf. unfold flags_inv. by rewrite Hd, Hs, Hf. Qed.

Lemma flag_free_omits instance :
  flag_free instance -> omits "saved" instance ∧ omits "save_failed" instance.
Proof. by destruct instance. Qed.

Lemma flags_inv_update instance m :
  flag_free instance -> flags_inv m -> flags_inv (update instance m).
Proof.
  intros [Hs Hf]%flag_free_omits (Hds & Hdf & Hflags).
  assert (Es : extend (defaults m) instance !! "saved" = None)
    by by rewrite extend_lookup_omitted.
  assert (Ef : extend (defaults m) instance !! "save_failed" = None)
    by by rewrite extend_lookup_omitted.
  unfold flags_inv. rewrite defaults_update, !read_update_other by done. done.
Qed.

Lemma flags_inv_set a b m :
  a && b = false ->
  defaults m !! "saved" = None ->
  defaults m !! "save_failed" = None ->
  read "saved" m = Some (VBool a) ->
  read "save_failed" m = Some (VBool b) ->
  flags_inv m.
Proof. intros. repeat split; try done. by exists a, b. Qed.

Lemma flags_inv_onDataSaved result m :
  flag_free (data result) -> flags_inv m -> flags_inv (model_of (onDataSaved result m)).
Proof.
  intros Hfree Hinv. unfold onDataSaved.
  destruct (strict_eq_num (status result) 0); cbn [model_of].
  - destruct Hinv as (Hds & Hdf & _).
    apply (flags_inv_set false true); try done; by read_writes.
  - apply (flags_inv_update _ _ Hfree) in Hinv as (Hds & Hdf & _).
    apply (flags_inv_set true false); try done; by read_writes.
Qed.

Lemma flags_inv_onDataLoaded result m :
  (forall p, payload result = Some p -> flag_free (legacy p)) ->
  flags_inv m -> flags_inv (model_of (onDataLoaded result m)).
Proof.
  intros Hfree Hinv. unfold onDataLoaded.
  destruct (strict_eq_num (status result) 0); cbn [model_of].
  - revert Hinv. apply flags_inv_frame; [done| |]; by read_writes.
  - destruct (payload result) as [p|]; cbn [model_of]; [|done].
    apply (flags_inv_update (legacy p)) in Hinv; [|by apply Hfree].
    revert Hinv. apply flags_inv_frame; [done| |]; by read_writes.
Qed.

Lemma flags_inv_exclusive m :
  flags_inv m -> ¬ (flag "saved" m = true ∧ flag "save_failed" m = true).
Proof.
  intros (_ & _ & a & b & Ha & Hb & Hab). unfold flag. rewrite Ha, Hb. simpl.
  intros [-> ->]. discriminate.
Qed.

Section Flags.

Variable api_url : string.
Variable csrf_token : string.
Variable valid : Model -> bool.

Lemma flags_inv_step m m' :
  step api_url csrf_token valid flag_free m m' -> flags_inv m -> flags_inv m'.
Proof.
  intros Hstep Hinv. destruct Hstep.
  - by apply flags_inv_update.
  - revert Hinv. by apply flags_inv_frame.
  - revert Hinv. apply flags_inv_frame; [done| |];
      unfold activateTab; by read_writes.
  - apply is_field_not_flag in H as (_ & Hs & Hf).
    revert Hinv. apply flags_inv_frame.
    + unfold edit. by rewrite model_of_onElementChanged.
    + by apply read_edit_ne.
    + by apply read_edit_ne.
  - revert Hinv. apply flags_inv_frame; [done| |];
      unfold load; by read_writes.
  - by apply flags_inv_onDataLoaded.
  - unfold save. destruct (validate valid m) as [[]|]; cbn [model_of]; try done.
    revert Hinv. apply flags_inv_frame; [done| |]; by read_writes.
  - by apply flags_inv_onDataSaved.
Qed.

Lemma flags_inv_reachable m :
  reachable api_url csrf_token valid flag_free m -> flags_inv m.
Proof.
  intros [fragment Hrtc].
  assert (Hstart := flags_inv_construct fragment).
  induction Hrtc as [|m0 m1 m2 Hstep _ IH]; [done|].
  apply IH. by apply (flags_inv_step m0).
Qed.

(** C9, amended.  Both flags start [false]; the save response handler
    leaves exactly one of them [true], whatever the response holds;
    and in every state reached while no record handed to the model
    ([user_data], a response's [legacy] or [data]) has a property
    named [saved] or [save_failed], the two are never both true. *)
Theorem saved_and_save_failed_exclusive :
  (forall fragment,
      read "saved" (construct fragment) = Some (VBool false)
      ∧ read "save_failed" (construct fragment) = Some (VBool false))
  ∧ (forall result m,
       let m' := model_of (onDataSaved result m) in
       if strict_eq_num (status result) 0
       then read "saved" m' = Some (VBool false)
            ∧ read "save_failed" m' = Some (VBool true)
       else read "saved" m' = Some (VBool true)
            ∧ read "save_failed" m' = Some (VBool false))
  ∧ (forall m,
       reachable api_url csrf_token valid flag_free m ->
       ¬ (flag "saved" m = true ∧ flag "save_failed" m = true)).
Proof.
  split; [|split].
  - intros fragment. split; reflexivity.
  - intros result m. unfold onDataSaved.
    destruct (strict_eq_num (status result) 0); cbn [model_of];
      split; by read_writes.
  - intros m Hreach. by apply flags_inv_exclusive, flags_inv_reachable.
Qed.

End Flags.

(** C9, where the claim fails: the page loads, and the load response's
    legacy record has the properties [saved] and [save_failed], both
    [true]; [update] writes them into the two flag observables. *)
Lemma load_response_sets_both_flags :
  let response :=
    mkResponse (VNum 1) (VArr [])
      (Some (mkPayload (Some {[ "saved" := VBool true; "save_failed" := VBool true ]})
                       (VObj [])))
      None in
  let m := model_of (onDataLoaded response
             (load "/admin/setting" "token"
                (bind_target true (update None (construct ""))))) in
  reachable "/admin/setting" "token" (fun _ => true) (fun _ => True) m
  ∧ read "saved" m = Some (VBool true)
  ∧ read "save_failed" m = Some (VBool true)
  ∧ flag "saved" m = true ∧ flag "save_failed" m = true.
Proof.
  intros response m. split.
  - exists "".
    eapply rtc_l; [by apply (step_update _ _ _ _ (construct "") None)|].
    eapply rtc_l; [apply (step_bind _ _ _ _ _ true)|].
    eapply rtc_l; [apply step_load|].
    eapply rtc_l; [by apply (step_loaded _ _ _ _ _ response)|].
    apply rtc_refl.
  - vm_compute. repeat split; reflexivity.
Qed.

Lemma saved_and_save_failed_exclusive_witness :
  let valid := fun _ : Model => true in
  let ready := bind_target true (update None (construct "")) in
  let ok := mkResponse (VNum 1) (VArr []) None (Some {[ "ldap_uri" := VStr "ldap://a" ]}) in
  let m := model_of (onDataSaved ok (model_of (save "/admin/setting" "token" valid ready))) in
  ¬ (flag "saved" m = true ∧ flag "save_failed" m = true).
Proof.
  intros valid ready ok m.
  apply (proj2 (proj2 (saved_and_save_failed_exclusive "/admin/setting" "token" valid))).
  exists "".
  eapply rtc_l; [by apply (step_update _ _ _ _ (construct "") None)|].
  eapply rtc_l; [apply (step_bind _ _ _ _ _ true)|].
  eapply rtc_l; [apply step_save|].
  eapply rtc_l; [apply (step_saved _ _ _ _ _ ok); split; reflexivity|].
  apply rtc_refl.
Defined.

(** *** More about [update] *)

Lemma update_unfold instance m :
  update instance m =
    mkModel (extend (defaults m) instance ∪ obs m) (tabs m)
            (extend (defaults m) instance) (target m)
            (location_hash m) (hash_writes m) (requests m).
Proof.
  pose proof (obs_update instance m) as Hobs.
  unfold update in *. simpl in *. by rewrite Hobs.
Qed.

Lemma extend_twice dst instance :
  extend (extend dst instance) instance = extend dst instance.
Proof.
  destruct instance as [o|]; simpl; [|done].
  by rewrite (assoc_L (∪)), (idemp_L (∪)).
Qed.

(** X3. Applying the same record twice is applying it once, and an
    [update] without a record after any [update] changes nothing:
    whatever [update] has applied, it re-applies to no effect. *)
Theorem update_settles (instance : option (gmap string value)) (m : Model) :
  update instance (update instance m) = update instance m
  ∧ update None (update instance m) = update instance m.
Proof.
  split; rewrite !update_unfold; simpl.
  - rewrite extend_twice. f_equal.
    by rewrite (assoc_L (∪)), (idemp_L (∪)).
  - f_equal. by rewrite (assoc_L (∪)), (idemp_L (∪)).
Qed.

Lemma update_keeps_and_mirrors (instance : option (gmap string value)) (m : Model) :
  let m' := update instance m in
  (forall key v, defaults m' !! key = Some v -> read key m' = Some v)
  ∧ (forall key, defaults m' !! key = None -> read key m' = read key m)
  ∧ (forall key, is_Some (read key m) -> is_Some (read key m'))
  ∧ (forall key, is_Some (defaults m !! key) -> is_Some (defaults m' !! key)).
Proof.
  cbv zeta. repeat split.
  - intros key v H. by apply read_update_default.
  - intros key H. by apply read_update_other.
  - intros key H. unfold read. rewrite obs_update.
    apply lookup_union_is_Some. by right.
  - intros key H. rewrite defaults_update.
    destruct instance as [o|]; simpl; [|done].
    apply lookup_union_is_Some. by right.
Qed.

(** X4. After [update], every key of the merged [defaults] table has
    an observable holding the table's value, every other observable is
    as before, and nothing is ever removed: an observable or a
    [defaults] entry that existed before still exists. *)
Theorem update_mirrors_defaults (instance : option (gmap string value)) (m : Model) :
  let m' := update instance m in
  (forall key v, defaults m' !! key = Some v -> read key m' = Some v)
  ∧ (forall key, defaults m' !! key = None -> read key m' = read key m)
  ∧ (forall key, is_Some (read key m) -> is_Some (read key m'))
  ∧ (forall key, is_Some (defaults m !! key) -> is_Some (defaults m' !! key)).
Proof.
  cbv zeta. repeat split.
  - intros key v H. by apply read_update_default.
  - intros key H. by apply read_update_other.
  - intros key H. unfold read. rewrite obs_update.
    apply lookup_union_is_Some. by right.
  - intros key H. rewrite defaults_update.
    destruct instance as [o|]; simpl; [|done].
    apply lookup_union_is_Some. by right.
Qed.

(** X5. A property whose value is [undefined] is no property at all to
    [update]: the record with it and the record without it have the
    same effect, so no record can set a field to [undefined] or reset
    it by naming it without a value. *)
Theorem update_skips_undefined (key : string) (o : gmap string value) (m : Model) :
  update (Some (<[key := VUndef]> o)) m = update (Some (delete key o)) m.
Proof.
  assert (E : extend (defaults m) (Some (<[key := VUndef]> o))
              = extend (defaults m) (Some (delete key o))).
  { simpl. f_equal.
    rewrite map_filter_insert_False by (simpl; intros [_ H]; congruence).
    done. }
  by rewrite !update_unfold, E.
Qed.

Lemma grows_refl m : grows m m.
Proof. by split. Qed.

Lemma grows_trans m1 m2 m3 : grows m1 m2 -> grows m2 m3 -> grows m1 m3.
Proof. intros [H1 H2] [H3 H4]. split; intros key H; eauto. Qed.

Lemma grows_same m m' : obs m' = obs m -> defaults m' = defaults m -> grows m m'.
Proof. intros Ho Hd. unfold grows, read. by rewrite Ho, Hd. Qed.

Lemma grows_write key v m : grows m (write key v m).
Proof.
  split; [|done]. intros k H. unfold read, write; simpl.
  destruct (decide (key = k)) as [->|Hne].
  - rewrite lookup_insert_eq. eauto.
  - by rewrite lookup_insert_ne.
Qed.

Lemma grows_update instance m : grows m (update instance m).
Proof.
  destruct (update_keeps_and_mirrors instance m) as (_ & _ & Ho & Hd).
  by split.
Qed.

Lemma grows_activateTab tab m : grows m (activateTab tab m).
Proof.
  unfold activateTab.
  eapply grows_trans; [apply grows_write|]. by apply grows_same.
Qed.

(** *** More about loading and saving *)

Lemma hasHash_nonempty m : hasHash m = negb (String.eqb (location_hash m) "").
Proof.
  unfold hasHash, location_hash_text.
  destruct (location_hash m) as [|c rest]; [done|].
  simpl. by destruct rest.
Qed.

Lemma getHash_fragment m : getHash m = location_hash m.
Proof.
  unfold getHash, location_hash_text.
  by destruct (location_hash m).
Qed.

Section LoadSave.

Variable api_url : string.
Variable csrf_token : string.
Variable valid : Model -> bool.

(** X6. [load] raises the loading flag and sends one POST that carries
    the token and neither [commit] nor [data].  The response handler
    lowers the flag again when the status is [0], or when a payload is
    there in whose settings tree no object has a property named
    [hasOwnProperty]; a response with another status and no payload
    makes the handler throw before it touches the model, and the flag
    stays up. *)
Theorem load_flag_follows_response (result : Response) (m : Model) :
  let loading := load api_url csrf_token m in
  requests loading = mkRequest api_url "POST" csrf_token None None :: requests m
  ∧ read "loading" loading = Some (VBool true)
  ∧ (status result = VNum 0
     ∨ (exists p, payload result = Some p ∧ plain_tree (settings p) = true) ->
     exists ret m',
       onDataLoaded result loading = Returned ret m'
       ∧ read "loading" m' = Some (VBool false)
       ∧ requests m' = requests loading)
  ∧ (status result ≠ VNum 0 -> payload result = None ->
     onDataLoaded result loading = Threw loading).
Proof.
  cbv zeta. split; [done|]. split; [by unfold load; read_writes|]. split.
  - intros H. unfold onDataLoaded.
    destruct (strict_eq_num (status result) 0) eqn:Hs.
    + eexists _, _. split; [done|]. split; [by read_writes|done].
    + destruct H as [H|(p & Hp & _)].
      * apply strict_eq_num_true in H. congruence.
      * rewrite Hp. eexists _, _. split; [done|]. split; [by read_writes|done].
  - intros Hs%strict_eq_num_false Hp. unfold onDataLoaded. by rewrite Hs, Hp.
Qed.

(** X7. A successful load puts every settings field its record omits
    back to what [defaults] holds for it, whatever the observable held
    (a value typed since the last load is gone); a field that neither
    the record nor [defaults] knows is left as it is. *)
Theorem load_resets_omitted_fields (result : Response) (p : Payload) (m : Model)
    (key : string) :
  status result ≠ VNum 0 ->
  payload result = Some p ->
  is_field key = true ->
  omits key (legacy p) ->
  let m' := model_of (onDataLoaded result m) in
  (forall d, defaults m !! key = Some d -> read key m' = Some d)
  ∧ (defaults m !! key = None -> read key m' = read key m).
Proof.
  intros Hs%strict_eq_num_false Hp Hf Ho. unfold onDataLoaded.
  rewrite Hs, Hp. cbn [model_of].
  assert (Hframe : forall m0,
             read key (write "loading" (VBool false)
                         (write "messages" (messages result)
                            (write "messages_class" (VStr "info")
                               (write "settings" (observe (settings p)) m0))))
             = read key m0).
  { intros m0. rewrite !read_write_ne by (intros <-; discriminate). done. }
  split.
  - intros d Hd. rewrite Hframe. apply read_update_default.
    by rewrite extend_lookup_omitted.
  - intros Hd. rewrite Hframe. apply read_update_other.
    by rewrite extend_lookup_omitted.
Qed.

(** X8. A save response whose status is [0] flips the flags (saved
    off, save_failed on, saving off), stores the messages with the
    [danger] class and returns [false]; no settings field, no
    [defaults] entry and no request changes.  Any other status merges
    the response's [data] through [update]: each field gets the value
    the merged table holds for it. *)
Theorem onDataSaved_failure_keeps_fields (result : Response) (m : Model) :
  (status result = VNum 0 ->
     let m' := model_of (onDataSaved result m) in
     onDataSaved result m = Returned (VBool false) m'
     ∧ read "saved" m' = Some (VBool false)
     ∧ read "save_failed" m' = Some (VBool true)
     ∧ read "saving" m' = Some (VBool false)
     ∧ read "messages" m' = Some (messages result)
     ∧ read "messages_class" m' = Some (VStr "danger")
     ∧ (forall key, is_field key = true -> read key m' = read key m)
     ∧ defaults m' = defaults m
     ∧ requests m' = requests m)
  ∧ (status result ≠ VNum 0 ->
     let m' := model_of (onDataSaved result m) in
     onDataSaved result m = Returned VUndef m'
     ∧ defaults m' = extend (defaults m) (data result)
     ∧ (forall key v, is_field key = true ->
                      extend (defaults m) (data result) !! key = Some v ->
                      read key m' = Some v)
     ∧ (forall key, is_field key = true ->
                    extend (defaults m) (data result) !! key = None ->
                    read key m' = read key m)).
Proof.
  split.
  - intros Hs%strict_eq_num_true. unfold onDataSaved. rewrite Hs.
    cbn [model_of]. repeat split; try (by read_writes).
    intros key Hf. by rewrite !read_write_ne by (intros <-; discriminate).
  - intros Hs%strict_eq_num_false. unfold onDataSaved. rewrite Hs.
    cbn [model_of]. repeat split.
    + intros key v Hf Hk.
      rewrite !read_write_ne by (intros <-; discriminate).
      by apply read_update_default.
    + intros key Hf Hk.
      rewrite !read_write_ne by (intros <-; discriminate).
      by apply read_update_other.
Qed.

(** X9. On a model whose members are intact and with a record that
    names none of them: where the selector finds no element, [init]
    throws.  The record is applied and a tab may have been activated,
    but no request goes out even with [autoload], [target] stays
    [null], and every later [save] throws as well. *)
Theorem init_without_target_throws
    (user_data : option (gmap string value)) (autoload : bool) (m : Model) :
  intact m ->
  ordinary user_data ->
  target m = false ->
  exists m',
    init api_url csrf_token valid user_data false autoload m = Threw m'
    ∧ defaults m' = extend (defaults m) user_data
    ∧ target m' = false
    ∧ requests m' = requests m
    ∧ save api_url csrf_token valid m' = Threw m'
    ∧ onSaveClick api_url csrf_token valid m' = Threw m'.
Proof.
  intros _ _ Ht. unfold init, setupKnockoutBindings.
  assert (Hthrow : forall m0, target m0 = false ->
            save api_url csrf_token valid m0 = Threw m0
            ∧ onSaveClick api_url csrf_token valid m0 = Threw m0).
  { intros m0 H0. unfold onSaveClick, save, validate. by rewrite H0. }
  destruct (hasHash (update user_data m)); cbn [and_then].
  - unfold setupValidation, validate. cbn. rewrite Ht.
    eexists. split; [done|]. repeat split; try done; by apply Hthrow.
  - unfold activateDefaultTab.
    destruct (read "tab_default" (update user_data m)) as [[| | | |tab|items|]|];
      cbn [and_then];
      try (eexists; split; [done|]; repeat split; try done; by apply Hthrow).
    + unfold setupValidation, validate. cbn. rewrite Ht.
      eexists. split; [done|]. repeat split; try done; by apply Hthrow.
    + unfold setupValidation, validate. cbn. rewrite Ht.
      eexists. split; [done|]. repeat split; try done; by apply Hthrow.
Qed.

(** X10. On a model whose members are intact and with a record that
    names none of them: where the selector finds the form,
    [tab_default] is a string and the path to activate is one the
    browser stores as written, [init] returns with the record applied
    over the defaults (the record wins), [target] bound, the tab named
    by the fragment active, or the default tab when the fragment is
    empty (a parent path completed by its default child), and one load
    request sent exactly when [autoload] is set. *)
Theorem init_activates_and_loads
    (user_data : option (gmap string value)) (autoload : bool) (m : Model)
    (default : string) :
  intact m ->
  ordinary user_data ->
  read "tab_default" (update user_data m) = Some (VStr default) ->
  let start := if String.eqb (location_hash m) "" then default else location_hash m in
  let path := if includes "/" start then start else qualify (tabs m) start in
  verbatim path = true ->
  exists m',
    init api_url csrf_token valid user_data true autoload m = Returned VUndef m'
    ∧ target m' = true
    ∧ read "tab_active" m' = Some (VStr path)
    ∧ location_hash m' = path
    ∧ requests m' =
        ((if autoload then [mkRequest api_url "POST" csrf_token None None] else [])
         ++ requests m)%list
    ∧ (forall key v, is_field key = true ->
                     extend (defaults m) user_data !! key = Some v ->
                     read key m' = Some v).
Proof.
  intros _ _ Hd start path _. unfold init, setupKnockoutBindings.
  set (m1 := bind_target true (update user_data m)).
  assert (Hfields : forall key v tab,
             is_field key = true ->
             extend (defaults m) user_data !! key = Some v ->
             read key (activateTab tab m1) = Some v).
  { intros key v tab Hf Hk. unfold activateTab. rewrite read_set_location_hash.
    rewrite read_write_ne by (intros <-; discriminate).
    by apply read_update_default. }
  assert (Hstep : (if hasHash m1
                   then Returned VUndef (activateTab (getHash m1) m1)
                   else activateDefaultTab m1)
                  = Returned VUndef (activateTab start m1)).
  { rewrite hasHash_nonempty, getHash_fragment. subst start. simpl.
    destruct (String.eqb (location_hash m) ""); simpl; [|done].
    unfold activateDefaultTab.
    change (read "tab_default" m1) with (read "tab_default" (update user_data m)).
    by rewrite Hd. }
  rewrite Hstep. cbn [and_then].
  unfold setupValidation, validate. cbn [target activateTab set_location_hash
    write set_obs bind_target and_then].
  destruct (read_activateTab start m1) as (Hr & Hh & _).
  assert (Hpath : (if negb (includes "/" start) then qualify (tabs m1) start else start)
                  = path).
  { subst path. by destruct (includes "/" start). }
  rewrite Hpath in Hr, Hh.
  destruct autoload; eexists; (split; [reflexivity|]); repeat split.
  - unfold load. by read_writes.
  - exact Hh.
  - intros key v Hf Hk. unfold load. rewrite read_ajax.
    rewrite read_write_ne by (intros <-; discriminate). by apply Hfields.
  - exact Hr.
  - exact Hh.
  - intros key v Hf Hk. by apply Hfields.
Qed.

End LoadSave.

Lemma load_flag_follows_response_witness :
  let m := load "/admin/setting" "token" (construct "") in
  onDataLoaded (mkResponse (VNum 1) (VArr []) None None) m = Threw m
  ∧ read "loading" m = Some (VBool true).
Proof.
  intros m.
  destruct (load_flag_follows_response "/admin/setting" "token"
              (mkResponse (VNum 1) (VArr []) None None) (construct ""))
    as (_ & Hflag & _ & Hthrow).
  split; [|exact Hflag].
  apply Hthrow; [discriminate | reflexivity].
Defined.


Lemma load_resets_omitted_fields_witness :
  let typed := edit (fun _ => true) "ldap_uri" (VStr "ldap://typed") (update None (construct "")) in
  let answer := mkResponse (VNum 1) (VArr []) (Some (mkPayload (Some ∅) VNull)) None in
  read "ldap_uri" typed = Some (VStr "ldap://typed")
  ∧ read "ldap_uri" (model_of (onDataLoaded answer typed)) = Some (VStr "").
Proof.
  intros typed answer. split; [apply read_edit_eq|].
  assert (Hne : status answer ≠ VNum 0) by discriminate.
  assert (Hfield : is_field "ldap_uri" = true) by reflexivity.
  assert (Homits : omits "ldap_uri" (legacy (mkPayload (Some ∅) VNull)))
    by reflexivity.
  destruct (load_resets_omitted_fields answer (mkPayload (Some ∅) VNull) typed
              "ldap_uri" Hne eq_refl Hfield Homits) as [Hreset _].
  apply Hreset.
  unfold typed, edit. rewrite model_of_onElementChanged.
  vm_compute. reflexivity.
Defined.


Lemma onDataSaved_failure_keeps_fields_witness :
  let m := update (Some {[ "ldap_uri" := VStr "ldap://a" ]}) (construct "") in
  let refused := mkResponse (VNum 0) (VArr [VStr "denied"]) None
                   (Some {[ "ldap_uri" := VStr "ldap://b" ]}) in
  let accepted := mkResponse (VNum 1) (VArr []) None
                    (Some {[ "ldap_uri" := VStr "ldap://b" ]}) in
  read "ldap_uri" (model_of (onDataSaved refused m)) = Some (VStr "ldap://a")
  ∧ read "ldap_uri" (model_of (onDataSaved accepted m)) = Some (VStr "ldap://b").
Proof.
  intros m refused accepted.
  assert (Hfield : is_field "ldap_uri" = true) by reflexivity.
  split.
  - destruct (proj1 (onDataSaved_failure_keeps_fields refused m) eq_refl)
      as (_ & _ & _ & _ & _ & _ & Hkeep & _).
    rewrite (Hkeep "ldap_uri" Hfield). vm_compute. reflexivity.
  - assert (Hne : status accepted ≠ VNum 0) by discriminate.
    destruct (proj2 (onDataSaved_failure_keeps_fields accepted m) Hne)
      as (_ & _ & Hmerge & _).
    apply (Hmerge "ldap_uri" _ Hfield). vm_compute. reflexivity.
Defined.


Lemma init_without_target_throws_witness :
  exists m',
    init "/admin/setting" "token" (fun _ => true) None false true (construct "mail") = Threw m'
    ∧ requests m' = [].
Proof.
  destruct (init_without_target_throws "/admin/setting" "token" (fun _ => true)
              None true (construct "mail")
              (intact_construct "mail") ordinary_none eq_refl)
    as (m' & Hinit & _ & _ & Hreq & _).
  exists m'. split; [exact Hinit | exact Hreq].
Defined.


Lemma init_activates_and_loads_witness :
  exists m',
    init "/admin/setting" "token" (fun _ => true)
         (Some {[ "ldap_enabled" := VBool true ]}) true true (construct "")
      = Returned VUndef m'
    ∧ read "tab_active" m' = Some (VStr "authentication/local")
    ∧ read "ldap_enabled" m' = Some (VBool true)
    ∧ requests m' = [mkRequest "/admin/setting" "POST" "token" None None].
Proof.
  destruct (init_activates_and_loads "/admin/setting" "token" (fun _ => true)
              (Some {[ "ldap_enabled" := VBool true ]}) true (construct "")
              "authentication") as (m' & Hinit & _ & Htab & _ & Hreq & Hfields).
  { apply intact_construct. }
  { unfold ordinary, member_names.
    repeat first [ apply Forall_nil_2
                 | apply Forall_cons_2; [vm_compute; reflexivity|] ]. }
  { vm_compute. reflexivity. }
  { vm_compute. reflexivity. }
  exists m'. split; [exact Hinit|]. split; [exact Htab|]. split; [|exact Hreq].
  apply Hfields; vm_compute; reflexivity.
Defined.

(** *** What a handler can touch *)

Section FootprintProperties.

Variable api_url : string.
Variable csrf_token : string.
Variable valid : Model -> bool.

Ltac touch_next :=
  lazymatch goal with
  | |- rtc _ ?m ?m => apply rtc_refl
  | |- rtc _ ?m (write _ _ ?x) =>
      apply (rtc_r m x);
      [|apply touch_write; first [by left | by right | by eauto]]
  | |- rtc _ ?m (update _ ?x) =>
      apply (rtc_r m x); [|apply touch_update; simpl; by eauto]
  | |- rtc _ ?m (ajax _ ?x) =>
      apply (rtc_r m x);
      [|apply touch_ajax; unfold posts; cbn [req_url req_type req_csrf_token
          req_commit req_data];
        repeat split;
        first [ by left
              | right; split; [done|]; eexists; split; [reflexivity|];
                by read_writes ]]
  | |- rtc _ ?m (set_location_hash _ ?x) =>
      apply (rtc_r m x); [|by apply touch_page]
  | |- rtc _ ?m (bind_target _ ?x) =>
      apply (rtc_r m x); [|by apply touch_page]
  end.

Ltac touch_all := cbv zeta; repeat touch_next.

Lemma activateTab_touches records tab m :
  rtc (touch api_url csrf_token records) m (activateTab tab m).
Proof. unfold activateTab. touch_all. Qed.

Lemma activateDefaultTab_touches records m :
  rtc (touch api_url csrf_token records) m (model_of (activateDefaultTab m)).
Proof.
  unfold activateDefaultTab.
  destruct (read "tab_default" m) as [[| | | |tab|items|]|]; cbn [model_of];
    try apply rtc_refl.
  - apply activateTab_touches.
  - touch_all.
Qed.

Lemma load_touches records m :
  rtc (touch api_url csrf_token records) m (load api_url csrf_token m).
Proof. unfold load. touch_all. Qed.

Lemma save_touches records m :
  rtc (touch api_url csrf_token records) m
      (model_of (save api_url csrf_token valid m)).
Proof.
  unfold save. destruct (validate valid m) as [[]|]; cbn [model_of];
    try apply rtc_refl.
  touch_all.
Qed.

Lemma onDataLoaded_touches result m :
  rtc (touch api_url csrf_token (records_of (EvLoaded result))) m
      (model_of (onDataLoaded result m)).
Proof.
  unfold onDataLoaded, records_of.
  destruct (strict_eq_num (status result) 0); cbn [model_of]; [touch_all|].
  destruct (payload result) as [p|]; cbn [model_of]; [|apply rtc_refl].
  touch_all.
Qed.

Lemma onDataSaved_touches result m :
  rtc (touch api_url csrf_token (records_of (EvSaved result))) m
      (model_of (onDataSaved result m)).
Proof.
  unfold onDataSaved, records_of.
  destruct (strict_eq_num (status result) 0); cbn [model_of]; touch_all.
Qed.

Lemma activateSubTab_touches records tab m :
  rtc (touch api_url csrf_token records) m (model_of (activateSubTab tab m)).
Proof.
  unfold activateSubTab.
  destruct (read "tab_sub_active" m) as [old|] eqn:Hsub; cbn [model_of];
    [|apply rtc_refl].
  destruct (read "tab_active" (write "tab_sub_active" (VStr tab) m));
    cbn [model_of]; touch_all.
Qed.

Lemma init_touches_after_update user_data found autoload m :
  rtc (touch api_url csrf_token (records_of (EvInit user_data found autoload)))
      (update user_data m)
      (model_of (init api_url csrf_token valid user_data found autoload m)).
Proof.
  unfold init, records_of.
  set (m1 := setupKnockoutBindings found (update user_data m)).
  assert (H1 : rtc (touch api_url csrf_token [user_data]) (update user_data m) m1).
  { subst m1. unfold setupKnockoutBindings. destruct found; [|apply rtc_refl].
    apply rtc_once. by apply touch_page. }
  assert (H2 : exists o, (if hasHash m1
                          then Returned VUndef (activateTab (getHash m1) m1)
                          else activateDefaultTab m1) = o
                         ∧ rtc (touch api_url csrf_token [user_data]) m1 (model_of o)).
  { eexists. split; [done|]. destruct (hasHash m1); cbn [model_of].
    - apply activateTab_touches.
    - apply activateDefaultTab_touches. }
  destruct H2 as (o & -> & H2).
  destruct o as [ret m2|m2]; cbn [and_then model_of] in *;
    [|by etrans].
  unfold setupValidation. destruct (validate valid m2);
    cbn [and_then model_of]; [|by etrans].
  destruct autoload; cbn [model_of]; [|by etrans].
  etrans; [exact H1|]. etrans; [exact H2|]. apply load_touches.
Qed.

Lemma init_touches user_data found autoload m :
  rtc (touch api_url csrf_token (records_of (EvInit user_data found autoload))) m
      (model_of (init api_url csrf_token valid user_data found autoload m)).
Proof.
  eapply rtc_l; [|apply init_touches_after_update].
  apply touch_update. by left.
Qed.

(** Every handler is made of the four kinds of change: it writes only
    observables that exist or that the constructor made, hands
    [update] only the event's own records, sends only well-formed
    POSTs, and leaves the tab table alone. *)
Lemma handle_touches e m :
  rtc (touch api_url csrf_token (records_of e)) m
      (handle api_url csrf_token valid e m).
Proof.
  destruct e; cbn [handle].
  - apply init_touches.
  - destruct (read key m) eqn:Hk; [|apply rtc_refl].
    unfold edit. rewrite model_of_onElementChanged.
    eapply rtc_r; [apply rtc_refl|]. apply touch_write. right. by rewrite Hk.
  - apply load_touches.
  - apply onDataLoaded_touches.
  - unfold onSaveClick.
    pose proof (save_touches [] m) as H.
    destruct (save api_url csrf_token valid m); cbn [and_then model_of] in *; done.
  - apply onDataSaved_touches.
  - unfold onHashChange.
    destruct (1 <? String.length (trim (location_hash_text m)))%nat;
      cbn [model_of].
    + apply activateTab_touches.
    + apply activateDefaultTab_touches.
  - unfold onTabClick. cbn [model_of]. apply activateTab_touches.
  - unfold onSubTabClick.
    pose proof (activateSubTab_touches [] tab m) as H.
    destruct (activateSubTab tab m); cbn [and_then model_of] in *; done.
Qed.

(** What each kind of change preserves. *)

Lemma touch_absent records key m m' :
  is_field key = true ->
  Forall (omits key) records ->
  touch api_url csrf_token records m m' ->
  absent key m -> absent key m'.
Proof.
  intros Hf Hrec Htouch [Hr Hd]. destruct Htouch as [m k v Hk|m i Hi|m r Hr'|m m' Ho Hd' _ _].
  - split; [|done]. rewrite read_write_ne; [done|].
    intros ->. destruct Hk as [Hk|[x Hx]]; congruence.
  - assert (Ho : omits key i).
    { rewrite Forall_forall in Hrec. apply Hrec. by apply list_elem_of_In. }
    split.
    + rewrite read_update_other; [done|]. by rewrite extend_lookup_omitted.
    + by rewrite defaults_update, extend_lookup_omitted.
  - done.
  - unfold absent, read. by rewrite Ho, Hd'.
Qed.

Lemma touch_grows records m m' :
  touch api_url csrf_token records m m' -> grows m m'.
Proof.
  intros [m0 k v _|m0 i _|m0 r _|m0 m1 Ho Hd _ _].
  - apply grows_write.
  - apply grows_update.
  - by apply grows_same.
  - by apply grows_same.
Qed.

Lemma touch_posts records m m' :
  touch api_url csrf_token records m m' ->
  Forall (posts api_url csrf_token) (requests m) ->
  Forall (posts api_url csrf_token) (requests m').
Proof.
  intros [m0 k v _|m0 i _|m0 r Hr|m0 m1 _ _ Hreq _] H; try done.
  - by apply Forall_cons.
  - by rewrite Hreq.
Qed.

Lemma handle_absent key e m :
  is_field key = true -> event_omits key e ->
  absent key m -> absent key (handle api_url csrf_token valid e m).
Proof.
  intros Hf Ho. pose proof (handle_touches e m) as Hrtc.
  induction Hrtc as [|m0 m1 m2 Hstep _ IH]; [done|].
  intros Ha. apply IH. by eapply touch_absent.
Qed.

Lemma handle_grows e m : grows m (handle api_url csrf_token valid e m).
Proof.
  pose proof (handle_touches e m) as Hrtc.
  induction Hrtc as [|m0 m1 m2 Hstep _ IH]; [apply grows_refl|].
  eapply grows_trans; [by eapply touch_grows | done].
Qed.

Lemma handle_posts e m :
  Forall (posts api_url csrf_token) (requests m) ->
  Forall (posts api_url csrf_token) (requests (handle api_url csrf_token valid e m)).
Proof.
  pose proof (handle_touches e m) as Hrtc.
  induction Hrtc as [|m0 m1 m2 Hstep _ IH]; [done|].
  intros H. apply IH. by eapply touch_posts.
Qed.

Lemma members_fresh (fragment name : string) :
  name ∈ "tab_sub_active" :: member_names ->
  is_field name = true ∧ absent name (construct fragment).
Proof.
  unfold member_names. intros Hin.
  repeat (apply elem_of_cons in Hin as [->|Hin]; [by repeat split|]).
  by apply elem_of_nil in Hin.
Qed.

Lemma run_absent (key : string) (events : list Event) (m : Model) :
  is_field key = true ->
  absent key m ->
  Forall (event_omits key) events ->
  absent key (run api_url csrf_token valid events m).
Proof.
  intros Hf Ha Hev. revert m Ha.
  induction Hev as [|e events He _ IH]; intros m Ha; [done|].
  cbn [run foldl]. apply IH. by apply handle_absent.
Qed.

(** X11. Observables are made by the constructor and by [update]
    only: a settings key that the model does not know, and that no
    record of a run of events names, is still unknown after the run.
    No click, edit, navigation or response creates it. *)
Theorem observables_come_from_records (key : string) (events : list Event) (m : Model) :
  is_field key = true ->
  absent key m ->
  Forall (event_omits key) events ->
  absent key (run api_url csrf_token valid events m).
Proof.
  intros Hf Ha Hev. revert m Ha.
  induction Hev as [|e events He _ IH]; intros m Ha; [done|].
  cbn [run foldl]. apply IH. by apply handle_absent.
Qed.

(** X12. [activateSubTab] calls [self.tab_sub_active], which nothing
    in the file creates: after any run of events from a fresh model
    whose records have no property of that name and none named as a
    member of the model, the members are intact, and a sub-tab click
    throws and leaves the model as it was. *)
Theorem sub_tab_click_always_throws
    (events : list Event) (fragment tab : string) :
  Forall (fun e => Forall (fun name => event_omits name e)
                          ("tab_sub_active" :: member_names)) events ->
  let m := run api_url csrf_token valid events (construct fragment) in
  intact m ∧ activateSubTab tab m = Threw m ∧ onSubTabClick tab m = Threw m.
Proof.
  intros Hev m.
  assert (Hall : Forall (fun name => absent name m)
                        ("tab_sub_active" :: member_names)).
  { apply Forall_forall. intros name Hin.
    destruct (members_fresh fragment name Hin) as [Hfield Hfresh].
    apply run_absent; [exact Hfield|exact Hfresh|].
    eapply Forall_impl; [exact Hev|].
    intros e He. cbv beta in He. rewrite Forall_forall in He. by apply He. }
  apply Forall_cons in Hall as [[Hr _] Hintact].
  split; [exact Hintact|].
  unfold onSubTabClick, activateSubTab. by rewrite Hr.
Qed.

Lemma run_grows (events : list Event) (m : Model) :
  grows m (run api_url csrf_token valid events m).
Proof.
  revert m. induction events as [|e events IH]; intros m; [apply grows_refl|].
  cbn [run foldl]. eapply grows_trans; [apply handle_grows | apply IH].
Qed.

(** X13. No handler removes anything: after any run of events, every
    observable and every [defaults] entry that existed still exists. *)
Theorem nothing_is_removed (events : list Event) (m : Model) :
  grows m (run api_url csrf_token valid events m).
Proof.
  revert m. induction events as [|e events IH]; intros m; [apply grows_refl|].
  cbn [run foldl]. eapply grows_trans; [apply handle_grows | apply IH].
Qed.

(** X14. Every request the model ever sends is a POST to the endpoint
    carrying the token, with either nothing else (a load) or
    [commit: 1] and the serialized model (a save). *)
Theorem requests_are_posts (events : list Event) (m : Model) :
  Forall (posts api_url csrf_token) (requests m) ->
  Forall (posts api_url csrf_token)
         (requests (run api_url csrf_token valid events m)).
Proof.
  revert m. induction events as [|e events IH]; intros m H; [done|].
  cbn [run foldl]. apply IH. by apply handle_posts.
Qed.

End FootprintProperties.

Lemma observables_come_from_records_witness :
  absent "ldap_bind_dn"
    (run "/admin/setting" "token" (fun _ => true)
       [EvInit None true true;
        EvEdit "ldap_bind_dn" (VStr "cn=admin");
        EvTabClick (VStr "ldap") (VStr "authentication");
        EvSaveClick]
       (construct "")).
Proof.
  apply (observables_come_from_records "/admin/setting" "token" (fun _ => true)
           "ldap_bind_dn").
  - reflexivity.
  - split; reflexivity.
  - repeat constructor.
Defined.

Lemma sub_tab_click_always_throws_witness :
  let m := run "/admin/setting" "token" (fun _ => true)
             [EvInit None true false; EvTabClick (VStr "authentication") VUndef]
             (construct "") in
  onSubTabClick "ldap" m = Threw m.
Proof.
  apply (sub_tab_click_always_throws "/admin/setting" "token" (fun _ => true)
           [EvInit None true false; EvTabClick (VStr "authentication") VUndef] "" "ldap").
  repeat constructor.
Defined.

Lemma requests_are_posts_witness :
  Forall (posts "/admin/setting" "token")
    (requests (run "/admin/setting" "token" (fun _ => true)
                 [EvInit None true true; EvSaveClick] (construct ""))).
Proof.
  apply (requests_are_posts "/admin/setting" "token" (fun _ => true)
           [EvInit None true true; EvSaveClick] (construct "")).
  constructor.
Defined.

(** *** More about navigation *)

Lemma append_assoc (a b c : string) : (a ++ b) ++ c = a ++ b ++ c.
Proof.
  induction a as [|x a IH]; [reflexivity|].
  change (String x ((a ++ b) ++ c) = String x (a ++ b ++ c)). by rewrite IH.
Qed.

Lemma qualify_fixed items tab :
  flat_parents items ->
  includes "/" (qualify items tab) = false ->
  qualify items (qualify items tab) = qualify items tab.
Proof.
  intros Hflat. rewrite (qualify_default_child items tab Hflat).
  destruct (List.find _ items) as [child|] eqn:Hfind.
  - by rewrite includes_slash_app.
  - intros _. by rewrite (qualify_default_child items tab Hflat), Hfind.
Qed.

Lemma trim_hash_text path :
  path ≠ "" -> trim_end path = path -> trim ("#" ++ path) = "#" ++ path.
Proof.
  intros Hne Htrim. change ("#" ++ path) with (String "#" path).
  unfold trim. change (trim_start (String "#" path)) with (String "#" path).
  simpl. rewrite Htrim. by destruct path.
Qed.

(** X15. Activating a tab does not set off a second navigation: when
    the hash-change handler of an intact model runs on the state
    [activateTab] left (a non-empty path that the browser stores as
    written), it activates the very path that is active, and the
    observables and the fragment stay as they are. *)
Theorem hash_change_after_activation_is_stable (m : Model) (tab : string) :
  intact m ->
  flat_parents (tabs m) ->
  let m1 := activateTab tab m in
  location_hash m1 ≠ "" ->
  verbatim (location_hash m1) = true ->
  exists m2,
    onHashChange m1 = Returned VUndef m2
    ∧ obs m2 = obs m1
    ∧ location_hash m2 = location_hash m1
    ∧ defaults m2 = defaults m1
    ∧ requests m2 = requests m1.
Proof.
  intros _ Hflat m1 Hne Hverbatim.
  assert (Htrim : trim_end (location_hash m1) = location_hash m1).
  { apply verbatim_trim_end. unfold verbatim in Hverbatim.
    by apply andb_prop in Hverbatim as [_ ?]. }
  clear Hverbatim.
  destruct (read_activateTab tab m) as (Hr & Hh & _).
  fold m1 in Hr, Hh.
  set (path := if negb (includes "/" tab) then qualify (tabs m) tab else tab) in *.
  assert (Hfix : (if negb (includes "/" path) then qualify (tabs m1) path else path)
                 = path).
  { destruct (includes "/" path) eqn:Hp; [done|]. simpl.
    subst path. destruct (includes "/" tab) eqn:Ht; simpl in *; [congruence|].
    by apply qualify_fixed. }
  unfold onHashChange, location_hash_text.
  rewrite Hh in *. apply String.eqb_neq in Hne. rewrite Hne.
  apply String.eqb_neq in Hne.
  rewrite trim_hash_text by done.
  change ("#" ++ path) with (String "#" path).
  assert (Hlen : (1 <? String.length (String "#" path))%nat = true).
  { by destruct path. }
  rewrite Hlen. simpl substring1.
  eexists. split; [done|].
  unfold activateTab. rewrite Hfix. simpl.
  repeat split; try done. by apply insert_id.
Qed.

Lemma hash_change_after_activation_is_stable_witness :
  let m1 := activateTab "authentication" (construct "") in
  exists m2,
    onHashChange m1 = Returned VUndef m2
    ∧ obs m2 = obs m1
    ∧ location_hash m2 = "authentication/local".
Proof.
  intros m1.
  destruct (hash_change_after_activation_is_stable (construct "") "authentication")
    as (m2 & Hret & Hobs & Hhash & _).
  - apply intact_construct.
  - apply flat_parents_initial.
  - discriminate.
  - reflexivity.
  - exists m2. split; [exact Hret|]. split; [exact Hobs|]. exact Hhash.
Defined.

(** X16. A click on a top-level tab lands where a click on its default
    child does, as long as the child's link hands the parent over as
    a truthy value: on an intact model and for a parent without a
    slash in its id, the click that carries the parent's id and no
    parent and the click that carries the child's id and the parent's
    both leave the same model, with the path [parent/child] active.
    The ids may arrive as strings or as the numbers they read as. *)
Theorem parent_click_is_default_child_click
    (m : Model) (parent : string) (child : Tab) (clicked tab via : value) :
  intact m ->
  flat_parents (tabs m) ->
  includes "/" parent = false ->
  List.find (fun t => parent_is t parent && tab_def t) (tabs m) = Some child ->
  js_to_string clicked = parent ->
  js_to_string tab = tab_id child ->
  js_to_string via = parent ->
  truthy via = true ->
  onTabClick clicked VUndef m = onTabClick tab via m
  ∧ read "tab_active" (model_of (onTabClick clicked VUndef m))
    = Some (VStr (parent ++ "/" ++ tab_id child)).
Proof.
  intros _ Hflat Hs Hfind Hclicked Htab Hvia Htruthy. unfold onTabClick.
  rewrite Htruthy, Hclicked, Htab, Hvia. cbn [truthy].
  change ("" ++ parent) with parent. rewrite append_assoc.
  assert (E : activateTab parent m = activateTab (parent ++ "/" ++ tab_id child) m).
  { unfold activateTab.
    rewrite Hs, includes_slash_app. simpl.
    by rewrite (qualify_default_child _ _ Hflat), Hfind. }
  rewrite E. split; [done|].
  destruct (read_activateTab (parent ++ "/" ++ tab_id child) m) as (Hr & _).
  by rewrite includes_slash_app in Hr.
Qed.

Lemma parent_click_is_default_child_click_witness :
  onTabClick (VStr "authentication") VUndef (construct "")
  = onTabClick (VStr "local") (VStr "authentication") (construct "").
Proof.
  apply (parent_click_is_default_child_click (construct "") "authentication"
           (mkTab "local" "Local" "fa fa-user-lock" (Some "authentication") true)
           (VStr "authentication") (VStr "local") (VStr "authentication")).
  - apply intact_construct.
  - apply flat_parents_initial.
  - reflexivity.
  - reflexivity.
  - reflexivity.
  - reflexivity.
  - reflexivity.
  - reflexivity.
Defined.

(** *** The predicates of the rule table *)

Ltac each_entry :=
  repeat lazymatch goal with
         | |- Forall _ (_ :: _) => apply Forall_cons_2
         | |- Forall _ [] => by constructor
         end.

(** X17. For each of the four OAuth providers, with the toggle and the
    auto-configure switch present: the "auto-configure enabled"
    predicate holds exactly when both are truthy, the "disabled" one
    exactly when the toggle is truthy and the switch is not.  So the
    two never hold together, and while the provider is enabled exactly
    one of them does. *)
Theorem auto_configure_predicates_split :
  Forall (fun '(toggle, switch, on, off) =>
            forall m e a,
              read toggle m = Some e ->
              read switch m = Some a ->
              applies on m = truthy e && truthy a
              ∧ applies off m = truthy e && negb (truthy a)
              ∧ applies on m && applies off m = false
              ∧ applies on m || applies off m = truthy e)
         auto_configure_predicates.
Proof.
  unfold auto_configure_predicates. each_entry;
    cbv beta iota; intros m e a He Ha;
    unfold applies,
      google_oauth_auto_configure_enabled, google_oauth_auto_configure_disabled,
      github_oauth_auto_configure_enabled, github_oauth_auto_configure_disabled,
      azure_oauth_auto_configure_enabled, azure_oauth_auto_configure_disabled,
      oidc_oauth_auto_configure_enabled, oidc_oauth_auto_configure_disabled,
      js_and, js_not;
    rewrite He, Ha; simpl;
    destruct (truthy e) eqn:Ee; simpl; rewrite ?Ee;
    destruct (truthy a); done.
Qed.

Lemma strict_pair_spec a b :
  (strict_eq_num a 1 && strict_eq_num b 1 = true <-> a = VNum 1 ∧ b = VNum 1)
  ∧ (forall flag : bool, a = VBool flag ∨ b = VBool flag ->
                         strict_eq_num a 1 && strict_eq_num b 1 = false).
Proof.
  split.
  - rewrite andb_true_iff, !strict_eq_num_true. done.
  - intros flag [-> | ->]; simpl; [done|]. apply andb_false_r.
Qed.

Lemma strict_one_spec :
  Forall (fun '(first, second, depends) =>
            forall m a b,
              read first m = Some a ->
              read second m = Some b ->
              (applies depends m = true <-> a = VNum 1 ∧ b = VNum 1)
              ∧ (forall flag : bool, a = VBool flag ∨ b = VBool flag ->
                                     applies depends m = false))
         strict_one_predicates.
Proof.
  unfold strict_one_predicates. each_entry;
    cbv beta iota; intros m a b Ha Hb;
    match goal with
    | |- (applies ?p m = true <-> _) ∧ _ =>
        assert (E : applies p m = strict_eq_num a 1 && strict_eq_num b 1)
    end;
    try (unfold applies, enforce_characters, enforce_complexity, ldap_sg_enabled,
           ldap_ap_enabled, azure_gs_enabled, js_and, is_one;
         rewrite Ha; simpl;
         destruct (strict_eq_num a 1); simpl; [by rewrite Hb | done]);
    rewrite E; apply strict_pair_spec.
Qed.

(** X18. Each of the five predicates written with [=== 1] holds
    exactly when both observables it reads are the number [1]; with a
    boolean in either place (what the defaults table holds and the
    switch binding writes) it never holds. *)
Theorem strict_one_predicates_need_numbers :
  Forall (fun '(first, second, depends) =>
            forall m a b,
              read first m = Some a ->
              read second m = Some b ->
              (applies depends m = true <-> a = VNum 1 ∧ b = VNum 1)
              ∧ (forall flag : bool, a = VBool flag ∨ b = VBool flag ->
                                     applies depends m = false))
         strict_one_predicates.
Proof.
  unfold strict_one_predicates. each_entry;
    cbv beta iota; intros m a b Ha Hb;
    match goal with
    | |- (applies ?p m = true <-> _) ∧ _ =>
        assert (E : applies p m = strict_eq_num a 1 && strict_eq_num b 1)
    end;
    try (unfold applies, enforce_characters, enforce_complexity, ldap_sg_enabled,
           ldap_ap_enabled, azure_gs_enabled, js_and, is_one;
         rewrite Ha; simpl;
         destruct (strict_eq_num a 1); simpl; [by rewrite Hb | done]);
    rewrite E; apply strict_pair_spec.
Qed.

(** X19. With LDAP's toggle and type present, the OpenLDAP predicate
    holds exactly when the toggle is truthy and the type is ['ldap'],
    the Active Directory one exactly when it is truthy and the type is
    ['ad']: never both, and neither for any other type. *)
Theorem ldap_type_predicates_split (m : Model) (e t : value) :
  read "ldap_enabled" m = Some e ->
  read "ldap_type" m = Some t ->
  applies ldap_type_openldap m
    = truthy e && match t with VStr s => String.eqb s "ldap" | _ => false end
  ∧ applies ldap_type_ad m
    = truthy e && match t with VStr s => String.eqb s "ad" | _ => false end
  ∧ applies ldap_type_openldap m && applies ldap_type_ad m = false.
Proof.
  intros He Ht.
  unfold applies, ldap_type_openldap, ldap_type_ad, js_and, is_text.
  rewrite He. simpl. destruct (truthy e) eqn:Ee; simpl; rewrite ?Ee; [|done].
  rewrite Ht. simpl. repeat split.
  destruct t as [| | | |s| |]; try done.
  destruct (String.eqb s "ldap") eqn:E; [|done].
  apply String.eqb_eq in E. by subst.
Qed.

Lemma ldap_type_predicates_split_witness :
  let m := update (Some {[ "ldap_enabled" := VBool true; "ldap_type" := VStr "ad" ]})
             (construct "") in
  applies ldap_type_openldap m = false ∧ applies ldap_type_ad m = true.
Proof.
  intros m.
  destruct (ldap_type_predicates_split m (VBool true) (VStr "ad"))
    as (Hopen & Had & _); [vm_compute; reflexivity.. |].
  split; [exact Hopen | exact Had].
Defined.

Lemma touches_grow api_url csrf_token records m m' :
  rtc (touch api_url csrf_token records) m m' -> grows m m'.
Proof.
  induction 1 as [|m0 m1 m2 Hstep _ IH]; [apply grows_refl|].
  eapply grows_trans; [by eapply touch_grows | done].
Qed.

Lemma fields_exist_update instance fragment :
  fields_exist (update instance (construct fragment)).
Proof.
  intros key Hk.
  destruct (update_keeps_and_mirrors instance (construct fragment))
    as (Hmirror & _ & _ & Hkeep).
  destruct (Hkeep key Hk) as [v Hv]. exists v. by apply Hmirror.
Qed.

Lemma fields_exist_grows m m' : grows m m' -> fields_exist m -> fields_exist m'.
Proof. intros [Hobs _] Hm key Hk. by apply Hobs, Hm. Qed.

Lemma is_Some_js_and a b : is_Some a -> is_Some b -> is_Some (js_and a b).
Proof. intros [x ->] [y ->]. unfold js_and. simpl. destruct (truthy x); eauto. Qed.

Lemma is_Some_js_not a : is_Some a -> is_Some (js_not a).
Proof. intros [x ->]. unfold js_not. simpl. eauto. Qed.

Lemma is_Some_is_one a : is_Some a -> is_Some (is_one a).
Proof. intros [x ->]. unfold is_one. simpl. eauto. Qed.

Lemma is_Some_is_text text a : is_Some a -> is_Some (is_text text a).
Proof. intros [x ->]. unfold is_text. simpl. eauto. Qed.

Lemma is_Some_count_if test key m enabled :
  is_Some (read key m) -> is_Some (count_if test key m enabled).
Proof. intros [x Hx]. unfold count_if. rewrite Hx. simpl. eauto. Qed.

Ltac field_exists H :=
  apply H; vm_compute; eexists; reflexivity.

Ltac predicate_returns H :=
  repeat first [ apply is_Some_js_and
               | apply is_Some_js_not
               | apply is_Some_is_one
               | apply is_Some_is_text ];
  field_exists H.

Lemma rule_predicates_return m :
  fields_exist m -> Forall (fun depends => is_Some (depends m)) rule_predicates.
Proof.
  intros H.
  unfold rule_predicates, rules.
  cbn [fmap list_fmap List.concat predicates_of omap list_omap snd app].
  each_entry; cbv beta;
    unfold local_enabled, ldap_enabled, google_oauth_enabled, github_oauth_enabled,
      azure_oauth_enabled, oidc_oauth_enabled, enforce_characters,
      enforce_complexity, ldap_type_openldap, ldap_type_ad, ldap_sg_enabled,
      ldap_ap_enabled, azure_gs_enabled, azure_gas_enabled,
      google_oauth_auto_configure_enabled, google_oauth_auto_configure_disabled,
      github_oauth_auto_configure_enabled, github_oauth_auto_configure_disabled,
      azure_oauth_auto_configure_enabled, azure_oauth_auto_configure_disabled,
      oidc_oauth_auto_configure_enabled, oidc_oauth_auto_configure_disabled;
    predicate_returns H.
Qed.

Lemma methods_return m :
  fields_exist m -> is_Some (auth_enabled m) ∧ is_Some (ldap_exclusive m).
Proof.
  intros H.
  assert (Hread : forall key test enabled,
             is_Some ((list_to_map static_defaults : gmap string value) !! key) ->
             exists n, count_if test key m enabled = Some n).
  { intros key test enabled Hk. apply is_Some_count_if. by apply H. }
  split.
  - unfold auth_enabled.
    repeat match goal with
           | |- context [count_if ?t ?k m ?n] =>
               destruct (Hread k t n) as [? ->];
               [vm_compute; eexists; reflexivity|]; simpl
           end.
    eauto.
  - unfold ldap_exclusive.
    repeat match goal with
           | |- context [count_if ?t ?k m ?n] =>
               destruct (Hread k t n) as [? ->];
               [vm_compute; eexists; reflexivity|]; simpl
           end.
    eauto.
Qed.

(** X20. Once [init] has run, whether it returned or threw, and
    whatever came after, no validation predicate and neither of the
    two model-reading methods can hit an observable that is not there:
    [init] starts with [update], the static defaults name every
    observable they read, and nothing is removed later. *)
Theorem predicates_never_throw_after_init
    (api_url csrf_token : string) (valid : Model -> bool)
    (user_data : option (gmap string value)) (found autoload : bool)
    (events : list Event) (fragment : string) :
  let m := run api_url csrf_token valid
             (EvInit user_data found autoload :: events) (construct fragment) in
  Forall (fun depends => is_Some (depends m)) rule_predicates
  ∧ is_Some (auth_enabled m)
  ∧ is_Some (ldap_exclusive m).
Proof.
  intros m.
  assert (H : fields_exist m).
  { subst m. cbn [run foldl handle].
    eapply fields_exist_grows; [apply run_grows|].
    eapply fields_exist_grows;
      [eapply touches_grow, init_touches_after_update|].
    apply fields_exist_update. }
  split; [by apply rule_predicates_return | by apply methods_return].
Qed.

(** *** The [setting] binding *)

Lemma find_profile_none (table : list (string * SettingBinding.SwitchOptions)) name :
  ~ In name (fst <$> table) ->
  List.find (fun entry => String.eqb (fst entry) name) table = None.
Proof.
  induction table as [|[n o] table IH]; simpl; [done|].
  intros Hnot. destruct (String.eqb n name) eqn:E.
  - apply String.eqb_eq in E. tauto.
  - apply IH. tauto.
Qed.

Lemma existsb_eqb_false name names :
  ~ In name names -> existsb (String.eqb name) names = false.
Proof.
  induction names as [|n names IH]; simpl; [done|].
  intros Hnot. destruct (String.eqb name n) eqn:E.
  - apply String.eqb_eq in E. subst. tauto.
  - apply IH. tauto.
Qed.

(** X21. How the [setting] binding picks the switch's options.  A
    non-empty profile name that is neither one of the five profiles
    nor a member every object inherits gets an error logged and no
    switch.  No profile, or an empty one, gets the [enabled] profile;
    each of the five names gets its own entry.  Whatever entry is
    used, the switch starts in the observable's state with size
    [mini], and each text or width comes from the element's data
    unless that is falsy (absent, empty, or [0]), in which case the
    built-in value stands. *)
Theorem setting_profile_resolution (el : gmap string value) (observed : value) :
  let profile := SettingBinding.data_of el "profile" in
  (forall name,
      profile = VStr name -> name ≠ "" ->
      ~ In name profile_names ->
      ~ In name SettingBinding.object_prototype_names ->
      SettingBinding.init el observed
      = SettingBinding.Unknown ("Unknown profile: " ++ name))
  ∧ (profile = VUndef ∨ profile = VStr "" ->
     SettingBinding.init el observed
     = SettingBinding.Switch
         (SettingBinding.Own
            (SettingBinding.profile_options "secondary" "primary" el observed)))
  ∧ (forall name options,
        In (name, options) (SettingBinding.profiles el observed) ->
        profile = VStr name ->
        SettingBinding.init el observed
        = SettingBinding.Switch (SettingBinding.Own options))
  ∧ (forall options,
        SettingBinding.init el observed
        = SettingBinding.Switch (SettingBinding.Own options) ->
        SettingBinding.state options = observed
        ∧ SettingBinding.size options = VStr "mini"
        ∧ SettingBinding.handleWidth options
          = (if truthy (SettingBinding.data_of el "handle-width")
             then SettingBinding.data_of el "handle-width" else VNum 55)
        ∧ SettingBinding.offText options
          = (if truthy (SettingBinding.data_of el "off-text")
             then SettingBinding.data_of el "off-text" else VStr "Disabled")
        ∧ SettingBinding.onText options
          = (if truthy (SettingBinding.data_of el "on-text")
             then SettingBinding.data_of el "on-text" else VStr "Enabled")).
Proof.
  intros profile.
  assert (Hown : forall options,
             In options (snd <$> SettingBinding.profiles el observed) ->
             SettingBinding.state options = observed
             ∧ SettingBinding.size options = VStr "mini"
             ∧ SettingBinding.handleWidth options
               = (if truthy (SettingBinding.data_of el "handle-width")
                  then SettingBinding.data_of el "handle-width" else VNum 55)
             ∧ SettingBinding.offText options
               = (if truthy (SettingBinding.data_of el "off-text")
                  then SettingBinding.data_of el "off-text" else VStr "Disabled")
             ∧ SettingBinding.onText options
               = (if truthy (SettingBinding.data_of el "on-text")
                  then SettingBinding.data_of el "on-text" else VStr "Enabled")).
  { intros options Hin. simpl in Hin.
    destruct Hin as [<-|[<-|[<-|[<-|[<-|[]]]]]]; repeat split. }
  assert (Hmember : forall p options,
             SettingBinding.member (SettingBinding.profiles el observed) p
             = SettingBinding.Own options ->
             In options (snd <$> SettingBinding.profiles el observed)).
  { intros p options. unfold SettingBinding.member.
    destruct (List.find _ _) as [entry|] eqn:Hfind.
    - intros [= <-]. apply find_some in Hfind as [Hin _].
      apply in_map_iff. by exists entry.
    - by destruct (existsb _ _). }
  split; [|split; [|split]].
  - intros name Hp Hne Hprofile Hproto.
    unfold SettingBinding.init. fold profile. rewrite Hp.
    assert (Hmissing : SettingBinding.member (SettingBinding.profiles el observed)
                         (VStr name) = SettingBinding.Missing).
    { unfold SettingBinding.member. cbn [js_to_string].
      rewrite find_profile_none by done.
      by rewrite existsb_eqb_false. }
    rewrite Hmissing.
    destruct name; [done|]. reflexivity.
  - intros [Hp|Hp]; unfold SettingBinding.init; fold profile; rewrite Hp;
      reflexivity.
  - intros name options Hin Hp.
    unfold SettingBinding.init. fold profile. rewrite Hp.
    simpl in Hin.
    destruct Hin as [[= <- <-]|[[= <- <-]|[[= <- <-]|[[= <- <-]|[[= <- <-]|[]]]]]];
      reflexivity.
  - intros options Hinit. apply Hown.
    unfold SettingBinding.init in Hinit. fold profile in Hinit.
    destruct (match profile with
              | VStr name => _
              | _ => false
              end); [done|].
    injection Hinit as Hinit.
    destruct (SettingBinding.member (SettingBinding.profiles el observed) profile)
      eqn:Hm; try done.
    + injection Hinit as <-. by eapply Hmember.
    + by eapply Hmember.
Qed.

Lemma setting_profile_resolution_witness :
  SettingBinding.init {[ "profile" := VStr "danger" ]} (VBool true)
  = SettingBinding.Unknown "Unknown profile: danger"
  ∧ SettingBinding.handleWidth
      (SettingBinding.profile_options "secondary" "primary"
         {[ "handle-width" := VNum 0 ]} (VBool true))
    = VNum 55.
Proof.
  split.
  - apply (proj1 (setting_profile_resolution {[ "profile" := VStr "danger" ]}
                    (VBool true)) "danger").
    + reflexivity.
    + discriminate.
    + simpl. intros H. repeat destruct H as [H|H]; discriminate || done.
    + simpl. intros H. repeat destruct H as [H|H]; discriminate || done.
  - destruct (setting_profile_resolution {[ "handle-width" := VNum 0 ]} (VBool true))
      as (_ & Hdefault & _ & Hoptions).
    destruct (Hoptions _ (Hdefault (or_introl eq_refl))) as (_ & _ & Hwidth & _).
    exact Hwidth.
Defined.

(** X22. The switch hands its listener a boolean, so a flag written
    through the binding is never the number [1]: once both LDAP flags
    have been switched, to whatever positions, [ldap_exclusive]
    reports valid, and the group-security and auto-provisioning
    predicates do not hold. *)
Theorem switched_flags_escape_strict_rules (m : Model) (a b : bool) :
  let m' := SettingBinding.on_switch_change "autoprovisioning" b
              (SettingBinding.on_switch_change "ldap_sg_enabled" a m) in
  SettingBinding.update "ldap_sg_enabled" m' = Some (VBool a)
  ∧ SettingBinding.update "autoprovisioning" m' = Some (VBool b)
  ∧ ldap_exclusive m' = Some true
  ∧ (is_Some (read "ldap_enabled" m) ->
     applies ldap_sg_enabled m' = false ∧ applies ldap_ap_enabled m' = false).
Proof.
  intros m'.
  assert (Ha : read "ldap_sg_enabled" m' = Some (VBool a)).
  { subst m'. unfold SettingBinding.on_switch_change. by read_writes. }
  assert (Hb : read "autoprovisioning" m' = Some (VBool b)).
  { subst m'. unfold SettingBinding.on_switch_change. by read_writes. }
  split; [done|]. split; [done|]. split.
  - by rewrite (ldap_exclusive_counts m' _ _ Ha Hb).
  - intros [e He].
    assert (He' : read "ldap_enabled" m' = Some e).
    { subst m'. unfold SettingBinding.on_switch_change. by read_writes. }
    pose proof strict_one_spec as Hall.
    unfold strict_one_predicates in Hall.
    rewrite !Forall_cons in Hall.
    destruct Hall as (_ & _ & Hsg & Hap & _).
    split.
    + apply (proj2 (Hsg m' e (VBool a) He' Ha) a). by right.
    + apply (proj2 (Hap m' e (VBool b) He' Hb) b). by right.
Qed.

Lemma switched_flags_escape_strict_rules_witness :
  let m := SettingBinding.on_switch_change "autoprovisioning" true
             (SettingBinding.on_switch_change "ldap_sg_enabled" true
                (update (Some {[ "ldap_enabled" := VNum 1 ]}) (construct ""))) in
  applies ldap_sg_enabled m = false ∧ applies ldap_ap_enabled m = false.
Proof.
  apply (switched_flags_escape_strict_rules
           (update (Some {[ "ldap_enabled" := VNum 1 ]}) (construct "")) true true).
  vm_compute. eexists. reflexivity.
Defined.

(** *** What [uuidRegExp] accepts *)

Import RegExp.

Lemma rep_match_shape ci k n subject cont :
  ci = true ->
  rep_match ci k n subject cont = shape_then (replicate n k) subject cont.
Proof.
  intros ->. revert subject.
  induction n as [|n IH]; intros subject; simpl; [done|].
  destruct subject as [|c subject]; [done|]. by rewrite IH.
Qed.

Lemma shape_then_app a b subject rest :
  shape_then (a ++ b)%list subject rest
  = shape_then a subject (fun subject' => shape_then b subject' rest).
Proof.
  revert subject. induction a as [|k a IH]; intros subject; simpl; [done|].
  destruct subject as [|c subject]; [done|]. by rewrite IH.
Qed.

Lemma shape_then_ext shape subject rest rest' :
  (forall l, rest l = rest' l) ->
  shape_then shape subject rest = shape_then shape subject rest'.
Proof.
  intros Hext. revert subject.
  induction shape as [|k shape IH]; intros subject; simpl; [done|].
  destruct subject as [|c subject]; [done|]. by rewrite IH.
Qed.

Lemma digit_is_digit c : cls_match true digit c = is_digit c.
Proof. destruct c as [[] [] [] [] [] [] [] []]; reflexivity. Qed.

Lemma plus_digit_eol st subject :
  match_here true (Seq (Plus digit) Eol) st subject (fun _ _ => true)
  = all_digits subject.
Proof.
  cbn [match_here]. clear st.
  induction subject as [|c subject IH]; cbn [plus_match all_digits]; [done|].
  rewrite digit_is_digit, IH. by destruct subject.
Qed.

Lemma all_digits_last subject : all_digits subject = true -> last_is_digit subject = true.
Proof.
  induction subject as [|c subject IH]; simpl; [done|].
  intros [Hc H]%andb_true_iff. destruct subject as [|c' subject]; [done|].
  apply IH. by rewrite orb_false_r in H.
Qed.

Lemma match_here_shape r :
  forall shape st subject cont,
    shape_of r = Some shape ->
    (forall s1 s2 l, cont s1 l = cont s2 l) ->
    match_here true r st subject cont = shape_then shape subject (cont false).
Proof.
  induction r as [| |k|n k|k|a IHa b IHb|a _ b _];
    intros shape st subject cont Hshape Hcont; simpl in Hshape; try done.
  - injection Hshape as <-. cbn [match_here shape_then].
    by destruct subject.
  - injection Hshape as <-. cbn [match_here].
    rewrite rep_match_shape by done.
    apply shape_then_ext. intros l. apply Hcont.
  - destruct (shape_of a) as [sa|]; [|done].
    destruct (shape_of b) as [sb|]; [|done].
    injection Hshape as <-. cbn [match_here].
    rewrite (IHa sa st subject _ eq_refl).
    + rewrite shape_then_app. apply shape_then_ext. intros l.
      by apply IHb.
    + intros s1 s2 l.
      by rewrite (IHb sb s1 l cont eq_refl Hcont), (IHb sb s2 l cont eq_refl Hcont).
Qed.

Lemma search_uuid st subject :
  search true uuidRegExp st subject
  = st && shape_then uuid_shape subject (fun _ => true) || last_is_digit subject.
Proof.
  assert (Hhere : forall st l,
             match_here true uuidRegExp st l (fun _ _ => true)
             = st && shape_then uuid_shape l (fun _ => true) || all_digits l).
  { intros st0 l. unfold uuidRegExp.
    change (match_here true (Alt ?a ?b) st0 l (fun _ _ => true)) with
      (match_here true a st0 l (fun _ _ => true)
       || match_here true b st0 l (fun _ _ => true)).
    rewrite plus_digit_eol.
    change (match_here true (Seq Bol ?r) st0 l (fun _ _ => true)) with
      (st0 && match_here true r st0 l (fun _ _ => true)).
    by rewrite (match_here_shape _ uuid_shape). }
  revert st. induction subject as [|c subject IH]; intros st.
  - change (search true uuidRegExp st []) with
      (match_here true uuidRegExp st [] (fun _ _ => true) || false).
    rewrite Hhere. simpl. by rewrite !andb_false_r.
  - change (search true uuidRegExp st (c :: subject)) with
      (match_here true uuidRegExp st (c :: subject) (fun _ _ => true)
       || search true uuidRegExp false subject).
    rewrite IH, Hhere. cbn [andb orb].
    destruct (st && shape_then uuid_shape (c :: subject) (fun _ => true)); [done|].
    cbn [orb].
    destruct (all_digits (c :: subject)) eqn:Hd.
    + by rewrite (all_digits_last _ Hd).
    + cbn [orb]. destruct subject as [|c' subject]; [|done].
      cbn [all_digits last_is_digit] in *. by destruct (is_digit c).
Qed.

(** X2. The [uuid] method accepts exactly the values that start with
    36 characters of the UUID shape (hexadecimal in either case,
    version digit 1 to 5, variant 8, 9, a or b) or that end in a
    decimal digit: text after a UUID is not looked at, and any text
    at all passes when a digit closes it. *)
Theorem uuid_accepts_iff (value : string) :
  uuid value = starts_with_uuid value || ends_in_digit value.
Proof.
  unfold uuid, test, starts_with_uuid, ends_in_digit.
  rewrite search_uuid. done.
Qed.

(** *** Saving what was typed, and saving twice *)

Section SaveTwice.

Variable api_url : string.
Variable csrf_token : string.
Variable valid : Model -> bool.

(** X24. What is typed is what is sent: after an edit of a settings
    field (any but one named [tabs], which the serialized tab table
    takes), a save that passes validation posts a document holding
    the typed value under the field's name. *)
Theorem save_sends_typed_value (m : Model) (key : string) (v : value) :
  is_field key = true ->
  key ≠ "tabs" ->
  v ≠ VUndef ->
  validate valid (edit valid key v m) = Some true ->
  exists post document,
    requests (model_of (save api_url csrf_token valid (edit valid key v m)))
    = post :: requests m
    ∧ req_data post = Some document
    ∧ document !! key = Some v.
Proof.
  intros Hf Htabs Hv Hvalid. unfold save. rewrite Hvalid. cbn [model_of].
  eexists _, _. split.
  { unfold edit. rewrite model_of_onElementChanged. reflexivity. }
  split; [reflexivity|].
  apply toJSON_lookup; [done| |done].
  rewrite read_write_ne by (intros <-; discriminate).
  apply read_write_eq.
Qed.

(** X25. Nothing holds a second save back: while the first request is
    still out and the saving flag is up, another valid save sets the
    flag again and sends another POST.  The flags are for display and
    gate nothing. *)
Theorem save_is_not_held_back (m : Model) :
  validate valid m = Some true ->
  let first := model_of (save api_url csrf_token valid m) in
  validate valid first = Some true ->
  read "saving" first = Some (VBool true)
  ∧ exists post1 post2,
      requests (model_of (save api_url csrf_token valid first))
      = post2 :: post1 :: requests m
      ∧ req_commit post1 = Some 1%Z ∧ req_commit post2 = Some 1%Z.
Proof.
  intros H1 first H2.
  assert (Hfirst : first = ajax (mkRequest api_url "POST" csrf_token (Some 1%Z)
                                   (Some (toJSON (write "saving" (VBool true) m))))
                             (write "saving" (VBool true) m)).
  { subst first. unfold save. by rewrite H1. }
  split; [rewrite Hfirst; by read_writes|].
  unfold save at 1. rewrite H2. cbn [model_of].
  eexists _, _. split.
  { cbn [requests ajax write set_obs]. rewrite Hfirst. reflexivity. }
  split; reflexivity.
Qed.

End SaveTwice.

Lemma save_sends_typed_value_witness :
  let ready := bind_target true (update None (construct "")) in
  exists post document,
    requests (model_of (save "/admin/setting" "token" (fun _ => true)
                          (edit (fun _ => true) "ldap_uri" (VStr "ldap://a") ready)))
    = [post]
    ∧ req_data post = Some document
    ∧ document !! "ldap_uri" = Some (VStr "ldap://a").
Proof.
  intros ready.
  assert (Hfield : is_field "ldap_uri" = true) by reflexivity.
  assert (Htabs : "ldap_uri" ≠ "tabs") by discriminate.
  assert (Hdefined : VStr "ldap://a" ≠ VUndef) by discriminate.
  assert (Hvalid : validate (fun _ => true)
                     (edit (fun _ => true) "ldap_uri" (VStr "ldap://a") ready)
                   = Some true) by (vm_compute; reflexivity).
  exact (save_sends_typed_value "/admin/setting" "token" (fun _ => true)
           ready "ldap_uri" (VStr "ldap://a") Hfield Htabs Hdefined Hvalid).
Defined.

Lemma save_is_not_held_back_witness :
  let ready := bind_target true (update None (construct "")) in
  let first := model_of (save "/admin/setting" "token" (fun _ => true) ready) in
  exists post1 post2,
    requests (model_of (save "/admin/setting" "token" (fun _ => true) first))
    = [post2; post1].
Proof.
  intros ready first.
  assert (H1 : validate (fun _ => true) ready = Some true)
    by (vm_compute; reflexivity).
  assert (H2 : validate (fun _ => true) first = Some true)
    by (vm_compute; reflexivity).
  destruct (save_is_not_held_back "/admin/setting" "token" (fun _ => true)
              ready H1 H2) as (_ & post1 & post2 & Hreq & _).
  exists post1, post2. exact Hreq.
Defined.
